(** * The Pomodoro session state machine of manager-app

    A shallow embedding of the two JavaScript classes that make up the
    timer core:

    - [TimerStorage] (src/assets/js/timerStorage.js): default state,
      load/save/clear of the persisted record, the preset catalog,
      [initializeWithPreset], [formatTime], [getProgress] and
      [transitionToNext];
    - [PomodoroManager] (src/unnamed/part_001): the engine that owns the
      state, the interval handle and the subscribers.
    - the custom settings form of [PomodoroTimer] (src/unnamed/part_001):
      [validateCustomInput] and [applyCustomSettings], with the
      [parseInt] they read the inputs through.

    Modelling choices.

    - Numeric slots of a state hold a JavaScript value of the small
      universe [jsval]: [undefined], [null], [NaN] or an integer.  The
      operators the source applies to them ([-], [*], [+], [++], [||],
      [===], [Math.max]) are given their JavaScript meaning on that
      universe.  Fractions and infinities only appear inside
      [getProgress], whose arithmetic is carried out on [jsreal] with
      exact rationals: the rounding of doubles is not modelled.
    - [mode], [preset] and [isRunning] are typed: an enumeration, a
      string and a boolean.
    - A plain object carrying some of the keys of a state (the [updates]
      argument of [updateState], the result of [JSON.parse]) is a
      [Partial.t]; [{...a, ...b}] is [spread a b].
    - [localStorage] is a cell for the key ['pomodoro-timer'] together
      with three flags telling which of its methods throw; [Date.now()]
      reads the [clock] of the engine.
    - Subscribers are represented by the chronological trace of the
      events handed to [emit]; the registry of callbacks is a
      [Callbacks.t], and [deliveries] lists the calls a trace gives rise
      to.
    - A session of use is a list of [Command]s: the public mutators,
      the firing of the interval and the passing of time. *)

From Stdlib Require Import ZArith QArith Qminmax Ascii String List Bool Lia Lqa
  DecimalString.
From Stdlib Require DecimalFacts DecimalPos.
Import ListNotations.
Open Scope string_scope.
Open Scope Z_scope.

(** ** JavaScript values stored in numeric slots *)

Module JS.

Inductive jsval : Type :=
| Undefined
| Null
| NaN
| Num (z : Z).

Definition jsval_eqb (a b : jsval) : bool :=
  match a, b with
  | Undefined, Undefined | Null, Null | NaN, NaN => true
  | Num x, Num y => x =? y
  | _, _ => false
  end.

(** [ToNumber]: [None] stands for the number NaN. *)
Definition ToNumber (v : jsval) : option Z :=
  match v with
  | Undefined => None
  | Null => Some 0
  | NaN => None
  | Num z => Some z
  end.

Definition number (o : option Z) : jsval :=
  match o with
  | Some z => Num z
  | None => NaN
  end.

Definition arith (op : Z -> Z -> Z) (a b : jsval) : jsval :=
  number (match ToNumber a, ToNumber b with
          | Some x, Some y => Some (op x y)
          | _, _ => None
          end).

(** [a - b], [a * b] and [a + b] (no operand is a string here). *)
Definition sub : jsval -> jsval -> jsval := arith Z.sub.
Definition mul : jsval -> jsval -> jsval := arith Z.mul.
Definition add : jsval -> jsval -> jsval := arith Z.add.

(** [Math.max(0, v)]. *)
Definition Math_max0 (v : jsval) : jsval :=
  number (option_map (Z.max 0) (ToNumber v)).

(** [ToBoolean]. *)
Definition truthy (v : jsval) : bool :=
  match v with
  | Num z => negb (z =? 0)
  | _ => false
  end.

(** [a || b]. *)
Definition js_or (a b : jsval) : jsval := if truthy a then a else b.

(** [v === 0]. *)
Definition is_zero (v : jsval) : bool :=
  match v with
  | Num z => z =? 0
  | _ => false
  end.

(** [v <= 0]. *)
Definition le_zero (v : jsval) : bool :=
  match ToNumber v with
  | Some z => z <=? 0
  | None => false
  end.

(** Numbers with a fractional part, as [getProgress] computes them. *)
Inductive jsreal : Type :=
| RNaN
| PosInf
| NegInf
| Fin (q : Q).

(** [a / b] on two integer-valued operands. *)
Definition div (a b : jsval) : jsreal :=
  match ToNumber a, ToNumber b with
  | Some x, Some y =>
      if y =? 0 then
        if x =? 0 then RNaN else if 0 <? x then PosInf else NegInf
      else Fin (inject_Z x / inject_Z y)%Q
  | _, _ => RNaN
  end.

(** [r * 100]. *)
Definition times100 (r : jsreal) : jsreal :=
  match r with
  | Fin q => Fin (q * 100)%Q
  | other => other
  end.

(** [Math.max(0, r)]. *)
Definition Math_max0r (r : jsreal) : jsreal :=
  match r with
  | RNaN => RNaN
  | PosInf => PosInf
  | NegInf => Fin 0%Q
  | Fin q => Fin (Qmax 0%Q q)
  end.

(** [Math.min(100, r)]. *)
Definition Math_min100r (r : jsreal) : jsreal :=
  match r with
  | RNaN => RNaN
  | PosInf => Fin 100%Q
  | NegInf => NegInf
  | Fin q => Fin (Qmin 100%Q q)
  end.

(** [n.toString()] for an integer-valued number. *)
Definition toString (v : option Z) : string :=
  match v with
  | Some z => NilZero.string_of_int (Z.to_int z)
  | None => "NaN"
  end.

(** [s.padStart(2, '0')]. *)
Definition padStart2 (s : string) : string :=
  match String.length s with
  | O => "00"
  | S O => String.append "0" s
  | _ => s
  end.

(** [Math.ceil(ms / 1000)], [Math.floor(n / 60)] and [n % 60]. *)
Definition ceil_div1000 (ms : Z) : Z := - ((- ms) / 1000).
Definition floor_div60 (n : Z) : Z := n / 60.
Definition rem60 (n : Z) : Z := Z.rem n 60.

End JS.

Import JS.

(** ** Data model *)

Inductive Mode : Type := work | break.

Definition Mode_eqb (a b : Mode) : bool :=
  match a, b with
  | work, work | break, break => true
  | _, _ => false
  end.

(** The timer state: the ten keys of [defaultState]. *)
Record TimerState : Type := mkTimerState {
  mode : Mode;
  remainingMs : jsval;
  preset : string;
  isRunning : bool;
  completedSessions : jsval;
  lastTickAt : jsval;
  workDuration : jsval;
  breakDuration : jsval;
  customWorkDuration : jsval;
  customBreakDuration : jsval
}.

(** An object holding some of the keys of a state; [None] is a key that
    the object does not have. *)
Module Partial.

Record t : Type := mk {
  mode : option Mode;
  remainingMs : option jsval;
  preset : option string;
  isRunning : option bool;
  completedSessions : option jsval;
  lastTickAt : option jsval;
  workDuration : option jsval;
  breakDuration : option jsval;
  customWorkDuration : option jsval;
  customBreakDuration : option jsval
}.

(** [{}]. *)
Definition empty : t :=
  mk None None None None None None None None None None.

(** Reading a numeric key: a missing key reads as [undefined]. *)
Definition read (o : option jsval) : jsval :=
  match o with
  | Some v => v
  | None => Undefined
  end.

(** Assignments [o.key = v] used by the source. *)
Definition set_mode (v : Mode) (o : t) : t :=
  mk (Some v) (remainingMs o) (preset o) (isRunning o) (completedSessions o)
     (lastTickAt o) (workDuration o) (breakDuration o)
     (customWorkDuration o) (customBreakDuration o).

Definition set_remainingMs (v : jsval) (o : t) : t :=
  mk (mode o) (Some v) (preset o) (isRunning o) (completedSessions o)
     (lastTickAt o) (workDuration o) (breakDuration o)
     (customWorkDuration o) (customBreakDuration o).

Definition set_isRunning (v : bool) (o : t) : t :=
  mk (mode o) (remainingMs o) (preset o) (Some v) (completedSessions o)
     (lastTickAt o) (workDuration o) (breakDuration o)
     (customWorkDuration o) (customBreakDuration o).

Definition set_completedSessions (v : jsval) (o : t) : t :=
  mk (mode o) (remainingMs o) (preset o) (isRunning o) (Some v)
     (lastTickAt o) (workDuration o) (breakDuration o)
     (customWorkDuration o) (customBreakDuration o).

End Partial.

(** The object with every key of [s]: what [{...s}] contributes. *)
Definition keys_of (s : TimerState) : Partial.t :=
  Partial.mk (Some (mode s)) (Some (remainingMs s)) (Some (preset s))
    (Some (isRunning s)) (Some (completedSessions s)) (Some (lastTickAt s))
    (Some (workDuration s)) (Some (breakDuration s))
    (Some (customWorkDuration s)) (Some (customBreakDuration s)).

Definition pick {A : Type} (base : A) (over : option A) : A :=
  match over with
  | Some v => v
  | None => base
  end.

(** [{...base, ...over}]: the keys of [over] win. *)
Definition spread (base : TimerState) (over : Partial.t) : TimerState :=
  {| mode := pick (mode base) (Partial.mode over);
     remainingMs := pick (remainingMs base) (Partial.remainingMs over);
     preset := pick (preset base) (Partial.preset over);
     isRunning := pick (isRunning base) (Partial.isRunning over);
     completedSessions :=
       pick (completedSessions base) (Partial.completedSessions over);
     lastTickAt := pick (lastTickAt base) (Partial.lastTickAt over);
     workDuration := pick (workDuration base) (Partial.workDuration over);
     breakDuration := pick (breakDuration base) (Partial.breakDuration over);
     customWorkDuration :=
       pick (customWorkDuration base) (Partial.customWorkDuration over);
     customBreakDuration :=
       pick (customBreakDuration base) (Partial.customBreakDuration over) |}.

(** ** localStorage and JSON *)

(** The text stored under the key: the serialisation of an object with
    some of the keys of a state, or any other text.  On the latter
    [loadState] ends in its defaults: the empty text fails the test
    [!saved], a text that [JSON.parse] rejects or that denotes [null]
    ends in the [catch], and a number, a string or an array brings none
    of the ten keys. *)
Inductive Item : Type :=
| Malformed
| Json (o : Partial.t).

Record LocalStorage : Type := mkLocalStorage {
  item : option Item;
  getItemThrows : bool;
  setItemThrows : bool;
  removeItemThrows : bool
}.

(** How [JSON.stringify] renders the value of a numeric key: a key whose
    value is [undefined] is left out, NaN is written as [null]. *)
Definition JSON_value (v : jsval) : option jsval :=
  match v with
  | Undefined => None
  | NaN => Some Null
  | Null => Some Null
  | Num z => Some (Num z)
  end.

Definition JSON_stringify (s : TimerState) : Item :=
  Json (Partial.mk (Some (mode s)) (JSON_value (remainingMs s))
          (Some (preset s)) (Some (isRunning s))
          (JSON_value (completedSessions s)) (JSON_value (lastTickAt s))
          (JSON_value (workDuration s)) (JSON_value (breakDuration s))
          (JSON_value (customWorkDuration s))
          (JSON_value (customBreakDuration s))).

(** [JSON.parse]; [None] for a text that yields no record. *)
Definition JSON_parse (saved : Item) : option Partial.t :=
  match saved with
  | Malformed => None
  | Json o => Some o
  end.

(** ** The preset catalog *)

Module Preset.

Record t : Type := mk {
  name : string;
  description : string;
  workDuration : Z;
  breakDuration : Z;
  icon : string
}.

End Preset.

(** The second argument of [initializeWithPreset]; a key that the caller
    left out reads as [Undefined]. *)
Module CustomDurations.

Record t : Type := mk {
  workDuration : jsval;
  breakDuration : jsval
}.

(** [{}], the default value of the parameter. *)
Definition none : t := mk Undefined Undefined.

End CustomDurations.

(** The names every object literal inherits from [Object.prototype]. *)
Definition Object_prototype : list string :=
  [ "constructor"; "__defineGetter__"; "__defineSetter__"; "hasOwnProperty";
    "__lookupGetter__"; "__lookupSetter__"; "isPrototypeOf";
    "propertyIsEnumerable"; "toString"; "valueOf"; "__proto__";
    "toLocaleString" ].

(** The outcome of [presets[key]]: an own entry of the catalog, a member
    inherited from the prototype (truthy, and without duration keys), or
    [undefined]. *)
Inductive Property : Type :=
| Own (p : Preset.t)
| Inherited
| Missing.

Fixpoint own_property (entries : list (string * Preset.t)) (key : string)
  : option Preset.t :=
  match entries with
  | [] => None
  | (k, p) :: rest => if String.eqb k key then Some p else own_property rest key
  end.

Definition get_property (entries : list (string * Preset.t)) (key : string)
  : Property :=
  match own_property entries key with
  | Some p => Own p
  | None =>
      if existsb (String.eqb key) Object_prototype then Inherited else Missing
  end.

(** [a || b] on two such outcomes. *)
Definition or_property (a b : Property) : Property :=
  match a with
  | Missing => b
  | _ => a
  end.

Definition property_workDuration (p : Property) : jsval :=
  match p with
  | Own e => Num (Preset.workDuration e)
  | _ => Undefined
  end.

Definition property_breakDuration (p : Property) : jsval :=
  match p with
  | Own e => Num (Preset.breakDuration e)
  | _ => Undefined
  end.

(** ** class TimerStorage *)

Module TimerStorage.

Definition defaultState : TimerState :=
  {| mode := work;
     remainingMs := Num (25 * 60 * 1000);
     preset := "pomodoro";
     isRunning := false;
     completedSessions := Num 0;
     lastTickAt := Null;
     workDuration := Num 25;
     breakDuration := Num 5;
     customWorkDuration := Num 25;
     customBreakDuration := Num 5 |}.

(** The body of the [if (state.isRunning && state.lastTickAt)] block of
    [loadState], acting on the parsed object. *)
Definition reconcile (now : Z) (state : Partial.t) : Partial.t :=
  let elapsed := sub (Num now) (Partial.read (Partial.lastTickAt state)) in
  let state :=
    Partial.set_remainingMs
      (Math_max0 (sub (Partial.read (Partial.remainingMs state)) elapsed))
      state in
  if is_zero (Partial.read (Partial.remainingMs state)) then
    let state := Partial.set_isRunning false state in
    match Partial.mode state with
    | Some work =>
        let state :=
          Partial.set_completedSessions
            (add (Partial.read (Partial.completedSessions state)) (Num 1))
            state in
        let state := Partial.set_mode break state in
        Partial.set_remainingMs
          (mul (mul (Partial.read (Partial.breakDuration state)) (Num 60))
               (Num 1000))
          state
    | _ =>
        let state := Partial.set_mode work state in
        Partial.set_remainingMs
          (mul (mul (Partial.read (Partial.workDuration state)) (Num 60))
               (Num 1000))
          state
    end
  else state.

(** [loadState()]: the three ways to the defaults are the thrown
    [getItem], the missing item and the text that does not parse. *)
Definition loadState (ls : LocalStorage) (now : Z) : TimerState :=
  if getItemThrows ls then defaultState
  else
    match item ls with
    | None => defaultState
    | Some saved =>
        match JSON_parse saved with
        | None => defaultState
        | Some state =>
            let state :=
              if pick false (Partial.isRunning state)
                 && truthy (Partial.read (Partial.lastTickAt state))
              then reconcile now state
              else state in
            spread defaultState state
        end
    end.

(** [saveState(state)]; a throwing [setItem] is logged and swallowed. *)
Definition saveState (state : TimerState) (now : Z) (ls : LocalStorage)
  : LocalStorage :=
  let stateToSave :=
    spread state
      (Partial.mk None None None None None
         (Some (if isRunning state then Num now else Null))
         None None None None) in
  if setItemThrows ls then ls
  else mkLocalStorage (Some (JSON_stringify stateToSave))
         (getItemThrows ls) (setItemThrows ls) (removeItemThrows ls).

(** [clearState()]. *)
Definition clearState (ls : LocalStorage) : LocalStorage :=
  if removeItemThrows ls then ls
  else mkLocalStorage None
         (getItemThrows ls) (setItemThrows ls) (removeItemThrows ls).

Definition getPresets : list (string * Preset.t) :=
  [ ("pomodoro",
     Preset.mk "Pomodoro" "25 phút làm việc, 5 phút nghỉ" 25 5 "🍅");
    ("deepwork",
     Preset.mk "Deep Work" "50 phút làm việc, 10 phút nghỉ" 50 10 "🧠");
    ("custom",
     Preset.mk "Tùy chỉnh" "Thiết lập thời gian riêng" 25 5 "⚙️") ].

Definition initializeWithPreset (presetName : string)
  (customDurations : CustomDurations.t) : TimerState :=
  let presets := getPresets in
  let preset_ :=
    or_property (get_property presets presetName)
                (get_property presets "pomodoro") in
  let workDuration_ :=
    if String.eqb presetName "custom"
    then js_or (CustomDurations.workDuration customDurations)
            (property_workDuration preset_)
    else property_workDuration preset_ in
  let breakDuration_ :=
    if String.eqb presetName "custom"
    then js_or (CustomDurations.breakDuration customDurations)
            (property_breakDuration preset_)
    else property_breakDuration preset_ in
  spread defaultState
    (Partial.mk None
       (Some (mul (mul workDuration_ (Num 60)) (Num 1000)))
       (Some presetName) None None None
       (Some workDuration_)
       (Some breakDuration_)
       (Some (js_or (CustomDurations.workDuration customDurations)
                 (customWorkDuration defaultState)))
       (Some (js_or (CustomDurations.breakDuration customDurations)
                 (customBreakDuration defaultState)))).

Definition formatTime (ms : jsval) : string :=
  let totalSeconds := option_map ceil_div1000 (ToNumber ms) in
  let minutes := option_map floor_div60 totalSeconds in
  let seconds := option_map rem60 totalSeconds in
  String.append (padStart2 (toString minutes))
    (String.append ":" (padStart2 (toString seconds))).

Definition getProgress (state : TimerState) : jsreal :=
  let totalMs :=
    match mode state with
    | work => mul (mul (workDuration state) (Num 60)) (Num 1000)
    | break => mul (mul (breakDuration state) (Num 60)) (Num 1000)
    end in
  let progress := times100 (div (sub totalMs (remainingMs state)) totalMs) in
  Math_min100r (Math_max0r progress).

Definition isCompleted (state : TimerState) : bool :=
  le_zero (remainingMs state).

Definition getNextMode (state : TimerState) : Mode :=
  match mode state with
  | work => break
  | break => work
  end.

Definition transitionToNext (state : TimerState) : TimerState :=
  let isWorkCompleted := Mode_eqb (mode state) work in
  let nextMode := getNextMode state in
  spread state
    (Partial.mk (Some nextMode)
       (Some (match nextMode with
              | work => mul (mul (workDuration state) (Num 60)) (Num 1000)
              | break => mul (mul (breakDuration state) (Num 60)) (Num 1000)
              end))
       None
       (Some false)
       (Some (if isWorkCompleted
              then add (completedSessions state) (Num 1)
              else completedSessions state))
       None None None None None).

End TimerStorage.

(** ** class PomodoroManager *)

Module PomodoroManager.

(** What [emit] is called with: the event name and its payload. *)
Inductive Event : Type :=
| onTick (remainingMs_ : jsval) (formatted : string) (progress : jsreal)
| onStateChange (prevState : Partial.t) (newState : TimerState)
| onComplete (completedMode nextMode : Mode) (completedSessions_ : jsval)
| onModeSwitch (fromMode toMode : Mode) (completedSessions_ : jsval).

(** The engine together with the part of the browser it touches:
    [intervalId] is the handle of the scheduled tick ([None] for [null]),
    [handles] counts the handles [setInterval] has handed out, [storage]
    is [localStorage], [clock] is what [Date.now()] returns and [emitted]
    lists the calls of [emit], oldest first. *)
Record Engine : Type := mkEngine {
  state : TimerState;
  intervalId : option positive;
  handles : positive;
  storage : LocalStorage;
  clock : Z;
  emitted : list Event
}.

Definition set_state (s : TimerState) (e : Engine) : Engine :=
  mkEngine s (intervalId e) (handles e) (storage e) (clock e) (emitted e).

Definition set_storage (ls : LocalStorage) (e : Engine) : Engine :=
  mkEngine (state e) (intervalId e) (handles e) ls (clock e) (emitted e).

Definition emit (ev : Event) (e : Engine) : Engine :=
  mkEngine (state e) (intervalId e) (handles e) (storage e) (clock e)
           (emitted e ++ [ev]).

(** [setInterval] returns a fresh handle, [clearInterval] forgets one. *)
Definition startTimer (e : Engine) : Engine :=
  mkEngine (state e) (Some (handles e)) (Pos.succ (handles e))
           (storage e) (clock e) (emitted e).

Definition stopTimer (e : Engine) : Engine :=
  match intervalId e with
  | Some _ =>
      mkEngine (state e) None (handles e) (storage e) (clock e) (emitted e)
  | None => e
  end.

(** [new PomodoroManager()] in a browser whose storage is [ls], at time
    [now]. *)
Definition constructor (ls : LocalStorage) (now : Z) : Engine :=
  let e := mkEngine (TimerStorage.loadState ls now) None 1%positive ls now [] in
  if isRunning (state e) then startTimer e else e.

Definition updateState (updates : Partial.t) (e : Engine) : Engine :=
  let prevState := keys_of (state e) in
  let e := set_state (spread (state e) updates) e in
  let e := set_storage (TimerStorage.saveState (state e) (clock e) (storage e)) e in
  emit (onStateChange prevState (state e)) e.

Definition start (e : Engine) : Engine :=
  if isRunning (state e) then e
  else
    let e :=
      updateState
        (Partial.mk None None None (Some true) None None None None None None)
        e in
    startTimer e.

Definition pause (e : Engine) : Engine :=
  if negb (isRunning (state e)) then e
  else
    let e := stopTimer e in
    updateState
      (Partial.mk None None None (Some false) None None None None None None)
      e.

Definition toggle (e : Engine) : Engine :=
  if isRunning (state e) then pause e else start e.

Definition reset (e : Engine) : Engine :=
  let e := stopTimer e in
  let resetTime :=
    match mode (state e) with
    | work => mul (mul (workDuration (state e)) (Num 60)) (Num 1000)
    | break => mul (mul (breakDuration (state e)) (Num 60)) (Num 1000)
    end in
  updateState
    (Partial.mk None (Some resetTime) None (Some false) None None None None
       None None)
    e.

Definition selectPreset (presetName : string)
  (customDurations : CustomDurations.t) (e : Engine) : Engine :=
  let e := stopTimer e in
  let newState := TimerStorage.initializeWithPreset presetName customDurations in
  let newState :=
    spread newState
      (Partial.mk None None None None (Some (completedSessions (state e)))
         None None None None None) in
  let e := set_state newState e in
  let e := set_storage (TimerStorage.saveState (state e) (clock e) (storage e)) e in
  emit (onStateChange Partial.empty (state e)) e.

Definition setCustomDurations (workMinutes breakMinutes : jsval) (e : Engine)
  : Engine :=
  selectPreset "custom" (CustomDurations.mk workMinutes breakMinutes) e.

Definition skipSession (e : Engine) : Engine :=
  let e := stopTimer e in
  let nextState := TimerStorage.transitionToNext (state e) in
  let e := updateState (keys_of nextState) e in
  emit (onModeSwitch (mode (state e)) (mode nextState)
          (completedSessions nextState)) e.

Definition handleTimerComplete (e : Engine) : Engine :=
  let wasWorkSession := Mode_eqb (mode (state e)) work in
  let nextState := TimerStorage.transitionToNext (state e) in
  let e := stopTimer e in
  let e := updateState (keys_of nextState) e in
  let e :=
    emit (onComplete (if wasWorkSession then work else break)
            (mode nextState) (completedSessions nextState)) e in
  emit (onModeSwitch (if wasWorkSession then work else break)
          (mode nextState) (completedSessions nextState)) e.

Definition tick (e : Engine) : Engine :=
  if negb (isRunning (state e)) then stopTimer e
  else
    let newRemainingMs := Math_max0 (sub (remainingMs (state e)) (Num 1000)) in
    if is_zero newRemainingMs then handleTimerComplete e
    else
      let e :=
        updateState
          (Partial.mk None (Some newRemainingMs) None None None None None None
             None None)
          e in
      emit (onTick newRemainingMs (TimerStorage.formatTime newRemainingMs)
              (TimerStorage.getProgress (state e))) e.

Definition getState (e : Engine) : TimerState := state e.

Definition getFormattedTime (e : Engine) : string :=
  TimerStorage.formatTime (remainingMs (state e)).

Definition getProgress (e : Engine) : jsreal :=
  TimerStorage.getProgress (state e).

Definition getCompletedSessions (e : Engine) : jsval :=
  completedSessions (state e).

Definition resetAll (e : Engine) : Engine :=
  let e := stopTimer e in
  let e := set_storage (TimerStorage.clearState (storage e)) e in
  let e := set_state (TimerStorage.loadState (storage e) (clock e)) e in
  emit (onStateChange Partial.empty (state e)) e.

End PomodoroManager.

(** ** Vocabulary of the statements *)

Import PomodoroManager.

Definition is_number (v : jsval) : bool :=
  match v with
  | Num _ => true
  | _ => false
  end.

(** The six counters and durations of a state hold integers, as the data
    model types them ([lastTickAt] is typed apart: it may be [null]). *)
Definition numeric (s : TimerState) : bool :=
  is_number (remainingMs s) && is_number (completedSessions s)
  && is_number (workDuration s) && is_number (breakDuration s)
  && is_number (customWorkDuration s) && is_number (customBreakDuration s).

(** No key of the state reads as [undefined]. *)
Definition populated (s : TimerState) : bool :=
  negb (jsval_eqb (remainingMs s) Undefined)
  && negb (jsval_eqb (completedSessions s) Undefined)
  && negb (jsval_eqb (lastTickAt s) Undefined)
  && negb (jsval_eqb (workDuration s) Undefined)
  && negb (jsval_eqb (breakDuration s) Undefined)
  && negb (jsval_eqb (customWorkDuration s) Undefined)
  && negb (jsval_eqb (customBreakDuration s) Undefined).

(** What [JSON.parse] can put under a numeric key: [null] or a number. *)
Definition parsed_value (o : option jsval) : bool :=
  match o with
  | Some Undefined | Some NaN => false
  | _ => true
  end.

Definition parsed_object (o : Partial.t) : bool :=
  parsed_value (Partial.remainingMs o)
  && parsed_value (Partial.completedSessions o)
  && parsed_value (Partial.lastTickAt o)
  && parsed_value (Partial.workDuration o)
  && parsed_value (Partial.breakDuration o)
  && parsed_value (Partial.customWorkDuration o)
  && parsed_value (Partial.customBreakDuration o).

(** A key that is missing or holds anything but [undefined]. *)
Definition defined (o : option jsval) : bool :=
  match o with
  | Some Undefined => false
  | _ => true
  end.

Definition defined_object (o : Partial.t) : bool :=
  defined (Partial.remainingMs o)
  && defined (Partial.completedSessions o)
  && defined (Partial.lastTickAt o)
  && defined (Partial.workDuration o)
  && defined (Partial.breakDuration o)
  && defined (Partial.customWorkDuration o)
  && defined (Partial.customBreakDuration o).

(** The record currently held by the storage, when there is one. *)
Definition stored (ls : LocalStorage) : option Partial.t :=
  match item ls with
  | Some (Json o) => Some o
  | _ => None
  end.

(** The values of [remainingMs] that a subscriber can read off an
    event. *)
Definition visible_remainingMs (ev : Event) : list jsval :=
  match ev with
  | onTick r _ _ => [r]
  | onStateChange prev new =>
      match Partial.remainingMs prev with
      | Some v => [v; remainingMs new]
      | None => [remainingMs new]
      end
  | onComplete _ _ _ => []
  | onModeSwitch _ _ _ => []
  end.

(** [{...s, remainingMs: v}], [{...s, preset: v}] and
    [{...s, lastTickAt: v}]. *)
Definition with_remainingMs (v : jsval) (s : TimerState) : TimerState :=
  spread s (Partial.set_remainingMs v Partial.empty).

Definition with_preset (v : string) (s : TimerState) : TimerState :=
  spread s
    (Partial.mk None None (Some v) None None None None None None None).

Definition with_lastTickAt (v : jsval) (s : TimerState) : TimerState :=
  spread s
    (Partial.mk None None None None None (Some v) None None None None).

(** An override as a caller can pass it for a duration: left out (or any
    other falsy value), or a positive number of minutes. *)
Definition minutes_or_absent (v : jsval) : bool :=
  match v with
  | Num z => 0 <=? z
  | _ => true
  end.

Definition positive_number (v : jsval) : bool :=
  match v with
  | Num z => 0 <? z
  | _ => false
  end.

(** A browser with nothing stored and a storage that works. *)
Definition fresh_storage : LocalStorage :=
  mkLocalStorage None false false false.

(** The full length of the current phase, in milliseconds, for integer
    durations [w] and [b]. *)
Definition phaseTotalMs (m : Mode) (w b : Z) : Z :=
  match m with
  | work => w * 60000
  | break => b * 60000
  end.

(** [Math.min(100, Math.max(0, x))] on a finite [x]. *)
Definition clamp (x : Q) : Q := Qmin 100%Q (Qmax 0%Q x).

(** A running engine one tick away from the end of a work phase. *)
Definition about_to_complete : Engine :=
  mkEngine
    {| mode := work; remainingMs := Num 1000; preset := "pomodoro";
       isRunning := true; completedSessions := Num 3; lastTickAt := Null;
       workDuration := Num 25; breakDuration := Num 5;
       customWorkDuration := Num 25; customBreakDuration := Num 5 |}
    (Some 1%positive) 2%positive fresh_storage 1700000000000 [].

(** The state of an engine that has just been given custom durations of
    40 and 10 minutes. *)
Definition after_custom_40_10 : Engine :=
  setCustomDurations (Num 40) (Num 10) (constructor fresh_storage 1700000000000).

(** A state that the code produces with more time left than the phase
    lasts: a running record saved at one instant and loaded with the
    wall clock one second earlier. *)
Definition loaded_after_clock_step_back : TimerState :=
  TimerStorage.loadState
    (TimerStorage.saveState
       (spread TimerStorage.defaultState
          (Partial.set_isRunning true Partial.empty))
       1700000001000 fresh_storage)
    1700000000000.

(** The example of the specification: saved running 30 s ago with 10 s
    left on a work phase. *)
Definition stored_30s_ago : LocalStorage :=
  mkLocalStorage
    (Some (Json
       (Partial.mk (Some work) (Some (Num 10000)) (Some "pomodoro")
          (Some true) (Some (Num 2)) (Some (Num (1700000000000 - 30000)))
          (Some (Num 25)) (Some (Num 5)) (Some (Num 25)) (Some (Num 5)))))
    false false false.

(** A record that holds four keys only, the others being left to the
    defaults that [loadState] merges in: saved running 30 s ago with
    10 s left on a work phase. *)
Definition stored_without_durations : LocalStorage :=
  mkLocalStorage
    (Some (Json
       (Partial.mk (Some work) (Some (Num 10000)) None (Some true) None
          (Some (Num (1700000000000 - 30000))) None None None None)))
    false false false.

(** A paused state that still carries, in memory, the timestamp of the
    record it was loaded from. *)
Definition paused_with_old_timestamp : TimerState :=
  {| mode := break; remainingMs := Num 120000; preset := "deepwork";
     isRunning := false; completedSessions := Num 7;
     lastTickAt := Num 1699999990000;
     workDuration := Num 50; breakDuration := Num 10;
     customWorkDuration := Num 40; customBreakDuration := Num 10 |}.

(** ** Runs of the engine *)

(** The wall clock moves on by [ms] milliseconds. *)
Definition advance (ms : Z) (e : Engine) : Engine :=
  mkEngine (state e) (intervalId e) (handles e) (storage e) (clock e + ms)
           (emitted e).

(** The callback given to [setInterval] runs: it calls [tick], and only a
    scheduled interval can fire. *)
Definition fire (e : Engine) : Engine :=
  match intervalId e with
  | Some _ => tick e
  | None => e
  end.

(** What can happen to an engine: a call of one of its public mutators,
    the interval firing, or time passing. *)
Inductive Command : Type :=
| Start
| Pause
| Toggle
| Reset
| SelectPreset (presetName : string) (customDurations : CustomDurations.t)
| SetCustomDurations (workMinutes breakMinutes : jsval)
| SkipSession
| ResetAll
| Fire
| Advance (ms : Z).

Definition run (c : Command) (e : Engine) : Engine :=
  match c with
  | Start => start e
  | Pause => pause e
  | Toggle => toggle e
  | Reset => reset e
  | SelectPreset presetName customDurations =>
      selectPreset presetName customDurations e
  | SetCustomDurations workMinutes breakMinutes =>
      setCustomDurations workMinutes breakMinutes e
  | SkipSession => skipSession e
  | ResetAll => resetAll e
  | Fire => fire e
  | Advance ms => advance ms e
  end.

Definition run_all (cs : list Command) (e : Engine) : Engine :=
  fold_left (fun e c => run c e) cs e.

(** Arguments as the presentation layer passes them: a preset name that
    is not a member of [Object.prototype], overrides that are minute
    counts or absent, and a clock that does not step back. *)
Definition valid_command (c : Command) : bool :=
  match c with
  | SelectPreset presetName customDurations =>
      negb (existsb (String.eqb presetName) Object_prototype)
      && minutes_or_absent (CustomDurations.workDuration customDurations)
      && minutes_or_absent (CustomDurations.breakDuration customDurations)
  | SetCustomDurations workMinutes breakMinutes =>
      minutes_or_absent workMinutes && minutes_or_absent breakMinutes
  | Advance ms => 0 <=? ms
  | _ => true
  end.

(** The commands that can complete a phase. *)
Definition may_complete (c : Command) : bool :=
  match c with
  | SkipSession | Fire => true
  | _ => false
  end.

Definition is_ResetAll (c : Command) : bool :=
  match c with
  | ResetAll => true
  | _ => false
  end.

Definition is_Advance (c : Command) : bool :=
  match c with
  | Advance _ => true
  | _ => false
  end.

(** A state typed as the data model types it: integer counters, positive
    durations, and a countdown that is under way, strictly above 0 and
    at most the length of the current phase. *)
Definition well_formed (s : TimerState) : bool :=
  match remainingMs s, completedSessions s, workDuration s, breakDuration s,
        customWorkDuration s, customBreakDuration s with
  | Num r, Num n, Num w, Num b, Num cw, Num cb =>
      (0 <? r) && (r <=? phaseTotalMs (mode s) w b) && (0 <=? n)
      && (0 <? w) && (0 <? b) && (0 <? cw) && (0 <? cb)
  | _, _, _, _, _, _ => false
  end.

(** The interval is scheduled exactly when the state is running. *)
Definition scheduled (e : Engine) : bool :=
  Bool.eqb (match intervalId e with Some _ => true | None => false end)
           (isRunning (state e)).

(** Two states that differ at most in [lastTickAt], which only matters
    in its stored copy. *)
Definition same_timer (a b : TimerState) : Prop :=
  with_lastTickAt Null a = with_lastTickAt Null b.

(** The engine a page reload would construct at this instant. *)
Definition reload (e : Engine) : Engine :=
  constructor (storage e) (clock e).

(** One second passes and the interval fires. *)
Definition second (e : Engine) : Engine := fire (advance 1000 e).

Definition is_onStateChange (ev : Event) : bool :=
  match ev with
  | onStateChange _ _ => true
  | _ => false
  end.

(** ** The subscribers of the engine *)

(** The object [this.callbacks]; a subscriber is known by its identity,
    here a number. *)
Module Callbacks.

Record t : Type := mk {
  onTick : list nat;
  onStateChange : list nat;
  onComplete : list nat;
  onModeSwitch : list nat
}.

Definition empty : t := mk [] [] [] [].

End Callbacks.

(** The outcome of [this.callbacks[event]]: one of the four arrays, a
    member inherited from [Object.prototype] (truthy, and not an array),
    or [undefined]. *)
Inductive Slot : Type :=
| Subscribers (handlers : list nat)
| NotAnArray
| NoSuchEvent.

Definition callbacks_get (c : Callbacks.t) (event : string) : Slot :=
  if String.eqb event "onTick" then Subscribers (Callbacks.onTick c)
  else if String.eqb event "onStateChange"
  then Subscribers (Callbacks.onStateChange c)
  else if String.eqb event "onComplete"
  then Subscribers (Callbacks.onComplete c)
  else if String.eqb event "onModeSwitch"
  then Subscribers (Callbacks.onModeSwitch c)
  else if existsb (String.eqb event) Object_prototype then NotAnArray
  else NoSuchEvent.

(** [this.callbacks[event] = handlers] for one of the four names. *)
Definition callbacks_set (c : Callbacks.t) (event : string)
  (handlers : list nat) : Callbacks.t :=
  if String.eqb event "onTick"
  then Callbacks.mk handlers (Callbacks.onStateChange c)
         (Callbacks.onComplete c) (Callbacks.onModeSwitch c)
  else if String.eqb event "onStateChange"
  then Callbacks.mk (Callbacks.onTick c) handlers
         (Callbacks.onComplete c) (Callbacks.onModeSwitch c)
  else if String.eqb event "onComplete"
  then Callbacks.mk (Callbacks.onTick c) (Callbacks.onStateChange c)
         handlers (Callbacks.onModeSwitch c)
  else if String.eqb event "onModeSwitch"
  then Callbacks.mk (Callbacks.onTick c) (Callbacks.onStateChange c)
         (Callbacks.onComplete c) handlers
  else c.

(** [subscribe(event, callback)]; [None] when the call throws a
    [TypeError] because the slot has no [push]. *)
Definition subscribe (event : string) (callback : nat) (c : Callbacks.t)
  : option Callbacks.t :=
  match callbacks_get c event with
  | Subscribers handlers =>
      Some (callbacks_set c event (handlers ++ [callback]))
  | NotAnArray => None
  | NoSuchEvent => Some c
  end.

(** [unsubscribe(event, callback)]; [None] when the slot has no
    [filter]. *)
Definition unsubscribe (event : string) (callback : nat) (c : Callbacks.t)
  : option Callbacks.t :=
  match callbacks_get c event with
  | Subscribers handlers =>
      Some (callbacks_set c event
              (filter (fun cb => negb (Nat.eqb cb callback)) handlers))
  | NotAnArray => None
  | NoSuchEvent => Some c
  end.

(** The name under which the engine emits an event. *)
Definition event_name (ev : Event) : string :=
  match ev with
  | onTick _ _ _ => "onTick"
  | onStateChange _ _ => "onStateChange"
  | onComplete _ _ _ => "onComplete"
  | onModeSwitch _ _ _ => "onModeSwitch"
  end.

(** The calls made by [emit(event, data)], in order: every subscriber of
    the event is called with the payload; one that throws is logged and
    the loop goes on. *)
Definition calls_of (c : Callbacks.t) (ev : Event) : list (nat * Event) :=
  match callbacks_get c (event_name ev) with
  | Subscribers handlers => map (fun h => (h, ev)) handlers
  | _ => []
  end.

(** The calls made while a list of events is emitted, the subscribers
    staying the same. *)
Definition deliveries (c : Callbacks.t) (evs : list Event)
  : list (nat * Event) :=
  flat_map (calls_of c) evs.

(** [destroy()]: the interval is stopped and the subscribers are
    dropped. *)
Definition destroy (e : Engine) (c : Callbacks.t) : Engine * Callbacks.t :=
  (stopTimer e, Callbacks.empty).

(** ** Vocabulary of the further properties *)

(** The session count as an integer. *)
Definition sessions (s : TimerState) : Z :=
  match completedSessions s with
  | Num n => n
  | _ => 0
  end.

(** Two engines that differ at most in what their storage holds. *)
Definition agree (a b : Engine) : Prop :=
  state a = state b /\ intervalId a = intervalId b /\ handles a = handles b
  /\ clock a = clock b /\ emitted a = emitted b.

(** Two storages whose methods throw alike. *)
Definition same_flags (a b : LocalStorage) : Prop :=
  getItemThrows a = getItemThrows b
  /\ setItemThrows a = setItemThrows b
  /\ removeItemThrows a = removeItemThrows b.

(** A running engine half a second away from the end of a break. *)
Definition half_a_second_of_break_left : Engine :=
  mkEngine
    {| mode := break; remainingMs := Num 500; preset := "pomodoro";
       isRunning := true; completedSessions := Num 3; lastTickAt := Null;
       workDuration := Num 25; breakDuration := Num 5;
       customWorkDuration := Num 25; customBreakDuration := Num 5 |}
    (Some 1%positive) 2%positive fresh_storage 1700000000000 [].

(** A running work state, ten minutes before its end. *)
Definition running_with_ten_minutes_left : TimerState :=
  {| mode := work; remainingMs := Num 600000; preset := "pomodoro";
     isRunning := true; completedSessions := Num 1; lastTickAt := Null;
     workDuration := Num 25; breakDuration := Num 5;
     customWorkDuration := Num 25; customBreakDuration := Num 5 |}.

(** A storage that is empty and whose [setItem] throws. *)
Definition storage_that_rejects_writes : LocalStorage :=
  mkLocalStorage None false true false.

(** ** The custom settings form of the timer page *)

(** Texts are the UTF-8 bytes of what the page holds. *)

Definition decimal_digit (c : ascii) : option Z :=
  let n := nat_of_ascii c in
  if (48 <=? n)%nat && (n <=? 57)%nat then Some (Z.of_nat (n - 48))
  else None.

Definition hexadecimal_digit (c : ascii) : option Z :=
  let n := nat_of_ascii c in
  if (48 <=? n)%nat && (n <=? 57)%nat then Some (Z.of_nat (n - 48))
  else if (97 <=? n)%nat && (n <=? 102)%nat then Some (Z.of_nat (n - 87))
  else if (65 <=? n)%nat && (n <=? 70)%nat then Some (Z.of_nat (n - 55))
  else None.

(** White space and line terminators of one, two and three bytes: TAB,
    LF, VT, FF, CR, SP; U+00A0; U+1680, U+2000 to U+200A, U+2028,
    U+2029, U+202F, U+205F, U+3000 and U+FEFF. *)
Definition whitespace1 (a : ascii) : bool :=
  let n := nat_of_ascii a in
  ((9 <=? n)%nat && (n <=? 13)%nat) || (n =? 32)%nat.

Definition whitespace2 (a b : ascii) : bool :=
  (nat_of_ascii a =? 194)%nat && (nat_of_ascii b =? 160)%nat.

Definition whitespace3 (a b c : ascii) : bool :=
  let x := nat_of_ascii a in
  let y := nat_of_ascii b in
  let z := nat_of_ascii c in
  ((x =? 225) && (y =? 154) && (z =? 128))%nat
  || ((x =? 226) && (y =? 128)
      && (((128 <=? z) && (z <=? 138)) || (z =? 168) || (z =? 169)
          || (z =? 175)))%nat
  || ((x =? 226) && (y =? 129) && (z =? 159))%nat
  || ((x =? 227) && (y =? 128) && (z =? 128))%nat
  || ((x =? 239) && (y =? 187) && (z =? 191))%nat.

Fixpoint skip_whitespace (s : string) : string :=
  match s with
  | EmptyString => s
  | String a rest =>
      if whitespace1 a then skip_whitespace rest
      else
        match rest with
        | String b rest2 =>
            if whitespace2 a b then skip_whitespace rest2
            else
              match rest2 with
              | String c rest3 =>
                  if whitespace3 a b c then skip_whitespace rest3 else s
              | EmptyString => s
              end
        | EmptyString => s
        end
  end.

(** The value of the longest prefix of digits; [None] when the text
    starts with no digit. *)
Fixpoint read_digits (digit : ascii -> option Z) (radix : Z) (s : string)
  (acc : option Z) : option Z :=
  match s with
  | EmptyString => acc
  | String a rest =>
      match digit a with
      | Some d =>
          read_digits digit radix rest
            (Some (match acc with Some v => v * radix + d | None => d end))
      | None => acc
      end
  end.

(** [parseInt(text)], without a radix: leading white space is skipped,
    one sign is read, then [0x] or [0X] selects base 16, and the longest
    run of digits is the value; no digit gives [NaN].  The value is the
    exact integer: JavaScript rounds it to a double from 2^53 on, which
    changes no comparison with the bounds of the form. *)
Definition parseInt (text : string) : jsval :=
  let s := skip_whitespace text in
  let '(sign, s) :=
    match s with
    | String "-"%char rest => (-1, rest)
    | String "+"%char rest => (1, rest)
    | _ => (1, s)
    end in
  let parsed :=
    match s with
    | String "0"%char (String "x"%char rest) =>
        read_digits hexadecimal_digit 16 rest None
    | String "0"%char (String "X"%char rest) =>
        read_digits hexadecimal_digit 16 rest None
    | _ => read_digits decimal_digit 10 s None
    end in
  match parsed with
  | Some v => Num (sign * v)
  | None => NaN
  end.

(** [isNaN(v)], [v >= n] and [v <= n] on what [parseInt] returns. *)
Definition isNaN (v : jsval) : bool :=
  match ToNumber v with
  | Some _ => false
  | None => true
  end.

Definition js_ge (v : jsval) (n : Z) : bool :=
  match ToNumber v with
  | Some z => n <=? z
  | None => false
  end.

Definition js_le (v : jsval) (n : Z) : bool :=
  match ToNumber v with
  | Some z => z <=? n
  | None => false
  end.

(** An [input] element of the form: its text, whether it carries the
    class [invalid], and its custom validity message. *)
Module Input.

Record t : Type := mk {
  value : string;
  invalid : bool;
  customValidity : string
}.

End Input.

(** [validateCustomInput(input, min, max)]: the element as it is left,
    and the result. *)
Definition validateCustomInput (input : Input.t) (min max : Z)
  : Input.t * bool :=
  let value := parseInt (Input.value input) in
  let isValid := negb (isNaN value) && js_ge value min && js_le value max in
  (Input.mk (Input.value input) (negb isValid)
     (if isValid then ""
      else String.append "Vui lòng nhập số từ "
             (String.append (toString (Some min))
                (String.append " đến " (toString (Some max))))),
   isValid).

(** The part of the timer page that [applyCustomSettings] touches: the
    two inputs, the engine, and the notifications shown so far. *)
Record Page : Type := mkPage {
  workInput : Input.t;
  breakInput : Input.t;
  pomodoro : Engine;
  notifications : list (string * string)
}.

Definition applyCustomSettings (p : Page) : Page :=
  let workMinutes := parseInt (Input.value (workInput p)) in
  let breakMinutes := parseInt (Input.value (breakInput p)) in
  let '(workInput', workValid) := validateCustomInput (workInput p) 1 120 in
  if workValid then
    let '(breakInput', breakValid) :=
      validateCustomInput (breakInput p) 1 60 in
    if breakValid then
      mkPage workInput' breakInput'
        (setCustomDurations workMinutes breakMinutes (pomodoro p))
        (notifications p ++ [("Đã cập nhật thiết lập tùy chỉnh!", "success")])
    else mkPage workInput' breakInput' (pomodoro p) (notifications p)
  else mkPage workInput' (breakInput p) (pomodoro p) (notifications p).

(** ** Basic facts *)

Lemma spread_keys_of (s t : TimerState) : spread s (keys_of t) = t.
Proof. destruct t; reflexivity. Qed.

Lemma spread_empty (s : TimerState) : spread s Partial.empty = s.
Proof. destruct s; reflexivity. Qed.

Lemma mul_minutes (z : Z) : mul (mul (Num z) (Num 60)) (Num 1000) = Num (z * 60000).
Proof. unfold mul, arith; simpl. f_equal. lia. Qed.

Lemma add_one (z : Z) : add (Num z) (Num 1) = Num (z + 1).
Proof. reflexivity. Qed.

Lemma updateState_full (t : TimerState) (e : Engine) :
  state (updateState (keys_of t) e) = t.
Proof. unfold updateState; simpl. apply spread_keys_of. Qed.

Lemma stopTimer_state (e : Engine) : state (stopTimer e) = state e.
Proof. unfold stopTimer; destruct (intervalId e); reflexivity. Qed.

Lemma stopTimer_emitted (e : Engine) : emitted (stopTimer e) = emitted e.
Proof. unfold stopTimer; destruct (intervalId e); reflexivity. Qed.

Lemma stopTimer_storage (e : Engine) : storage (stopTimer e) = storage e.
Proof. unfold stopTimer; destruct (intervalId e); reflexivity. Qed.

Lemma stopTimer_clock (e : Engine) : clock (stopTimer e) = clock e.
Proof. unfold stopTimer; destruct (intervalId e); reflexivity. Qed.

Lemma stopTimer_intervalId (e : Engine) : intervalId (stopTimer e) = None.
Proof. unfold stopTimer; destruct (intervalId e) eqn:E; simpl; auto. Qed.

Lemma transitionToNext_work (s : TimerState) :
  mode s = work ->
  TimerStorage.transitionToNext s =
  {| mode := break;
     remainingMs := mul (mul (breakDuration s) (Num 60)) (Num 1000);
     preset := preset s;
     isRunning := false;
     completedSessions := add (completedSessions s) (Num 1);
     lastTickAt := lastTickAt s;
     workDuration := workDuration s;
     breakDuration := breakDuration s;
     customWorkDuration := customWorkDuration s;
     customBreakDuration := customBreakDuration s |}.
Proof.
  intros Hm. unfold TimerStorage.transitionToNext, TimerStorage.getNextMode.
  rewrite Hm. reflexivity.
Qed.

Lemma transitionToNext_break (s : TimerState) :
  mode s = break ->
  TimerStorage.transitionToNext s =
  {| mode := work;
     remainingMs := mul (mul (workDuration s) (Num 60)) (Num 1000);
     preset := preset s;
     isRunning := false;
     completedSessions := completedSessions s;
     lastTickAt := lastTickAt s;
     workDuration := workDuration s;
     breakDuration := breakDuration s;
     customWorkDuration := customWorkDuration s;
     customBreakDuration := customBreakDuration s |}.
Proof.
  intros Hm. unfold TimerStorage.transitionToNext, TimerStorage.getNextMode.
  rewrite Hm. reflexivity.
Qed.

(** What [handleTimerComplete] leaves behind, whatever the state. *)
Lemma handleTimerComplete_spec (e : Engine) :
  let next := TimerStorage.transitionToNext (state e) in
  let e' := handleTimerComplete e in
  state e' = next
  /\ intervalId e' = None
  /\ storage e' = TimerStorage.saveState next (clock e) (storage e)
  /\ emitted e' =
     (emitted e ++
      [ onStateChange (keys_of (state e)) next;
        onComplete (mode (state e)) (mode next) (completedSessions next);
        onModeSwitch (mode (state e)) (mode next) (completedSessions next) ])%list.
Proof.
  unfold handleTimerComplete, updateState; simpl.
  rewrite !stopTimer_state, !stopTimer_emitted, !stopTimer_storage,
    !stopTimer_clock, !spread_keys_of.
  repeat split.
  - apply stopTimer_intervalId.
  - rewrite <- !app_assoc; simpl. destruct (mode (state e)); reflexivity.
Qed.

(** ** The engine: natural completion (C1) *)

(** C1.  One tick of a running engine whose state is in mode [work] with
    [remainingMs = 1000] (durations and counters typed as in the data
    model: [breakDuration] a positive integer [b], [completedSessions] an
    integer [n]) leaves the state in mode [break] with
    [remainingMs = b * 60000], [isRunning = false] and
    [completedSessions = n + 1], cancels the schedule, and emits a state
    change, then [onComplete], then [onModeSwitch].  The value 0 is never
    observable: the new state does not hold it, no event of this tick
    shows it, and the record written to the storage (when [setItem] does
    not throw; otherwise nothing is written) holds [b * 60000]. *)
Theorem tick_completes_work_phase (e : Engine) (b n : Z) :
  isRunning (state e) = true ->
  mode (state e) = work ->
  remainingMs (state e) = Num 1000 ->
  breakDuration (state e) = Num b ->
  0 < b ->
  completedSessions (state e) = Num n ->
  let e' := tick e in
  mode (state e') = break
  /\ remainingMs (state e') = Num (b * 60000)
  /\ isRunning (state e') = false
  /\ completedSessions (state e') = Num (n + 1)
  /\ intervalId e' = None
  /\ emitted e' =
     (emitted e ++
      [ onStateChange (keys_of (state e)) (state e');
        onComplete work break (Num (n + 1));
        onModeSwitch work break (Num (n + 1)) ])%list
  /\ remainingMs (state e') <> Num 0
  /\ (forall ev, In ev (emitted e') ->
        In ev (emitted e) \/ ~ In (Num 0) (visible_remainingMs ev))
  /\ (setItemThrows (storage e) = true -> storage e' = storage e)
  /\ (setItemThrows (storage e) = false ->
        exists o, stored (storage e') = Some o
                  /\ Partial.remainingMs o = Some (Num (b * 60000))).
Proof.
  intros Hrun Hmode Hrem Hb Hpos Hn e'.
  assert (He' : e' = handleTimerComplete e).
  { unfold e', tick. rewrite Hrun, Hrem. reflexivity. }
  destruct (handleTimerComplete_spec e) as (Hst & Hint & Hsto & Hem).
  rewrite <- He' in Hst, Hint, Hsto, Hem.
  rewrite (transitionToNext_work _ Hmode), Hb, Hn, mul_minutes, add_one in *.
  assert (Hnz : Num (b * 60000) <> Num 0) by (intros H; inversion H; lia).
  rewrite Hst; simpl.
  repeat split; auto.
  - rewrite Hem, Hmode. reflexivity.
  - intros ev Hin. rewrite Hem in Hin. apply in_app_or in Hin.
    destruct Hin as [Hin | Hin]; [now left | right].
    destruct Hin as [<- | [<- | [<- | []]]]; simpl; try tauto.
    rewrite Hrem. intros [H | [H | []]]; congruence.
  - intros Hthrow. rewrite Hsto. unfold TimerStorage.saveState.
    now rewrite Hthrow.
  - intros Hthrow. rewrite Hsto. unfold TimerStorage.saveState.
    rewrite Hthrow. eexists; split; reflexivity.
Qed.

Lemma tick_completes_work_phase_witness :
  mode (state (tick about_to_complete)) = break
  /\ remainingMs (state (tick about_to_complete)) = Num 300000
  /\ completedSessions (state (tick about_to_complete)) = Num 4.
Proof.
  destruct (tick_completes_work_phase about_to_complete 5 3)
    as (Hm & Hr & _ & Hc & _);
    [reflexivity | reflexivity | reflexivity | reflexivity | lia
    | reflexivity | ].
  split; [exact Hm | split; [exact Hr | exact Hc]].
Defined.

(** ** The engine: manual skip (C3) *)

Lemma skipSession_spec (e : Engine) :
  let next := TimerStorage.transitionToNext (state e) in
  let e' := skipSession e in
  state e' = next
  /\ intervalId e' = None
  /\ emitted e' =
     (emitted e ++
      [ onStateChange (keys_of (state e)) next;
        onModeSwitch (mode next) (mode next) (completedSessions next) ])%list.
Proof.
  unfold skipSession, updateState; simpl.
  rewrite !stopTimer_state, !stopTimer_emitted, !spread_keys_of.
  repeat split.
  - apply stopTimer_intervalId.
  - rewrite <- !app_assoc; reflexivity.
Qed.

(** C3.  [skipSession()] applies [transitionToNext], emits a state change
    and one [onModeSwitch] and no [onComplete]; but the [fromMode] of
    that event is read from [this.state] after [updateState] has replaced
    it, so it is the mode after the transition, equal to [toMode], and
    never the mode before it. *)
Theorem skipSession_fromMode_is_the_new_mode (e : Engine) :
  let e' := skipSession e in
  state e' = TimerStorage.transitionToNext (state e)
  /\ emitted e' =
     (emitted e ++
      [ onStateChange (keys_of (state e)) (state e');
        onModeSwitch (mode (state e')) (mode (state e'))
          (completedSessions (state e')) ])%list
  /\ mode (state e') <> mode (state e).
Proof.
  destruct (skipSession_spec e) as (Hst & _ & Hem). cbv zeta.
  rewrite Hem, Hst. repeat split.
  unfold TimerStorage.transitionToNext, TimerStorage.getNextMode; simpl.
  destruct (mode (state e)); discriminate.
Qed.

(** The part of C3 that the code does satisfy: skipping a break moves to
    [work] and leaves the session count alone. *)
Lemma skipSession_break (e : Engine) :
  mode (state e) = break ->
  mode (state (skipSession e)) = work
  /\ completedSessions (state (skipSession e)) = completedSessions (state e)
  /\ remainingMs (state (skipSession e)) =
     mul (mul (workDuration (state e)) (Num 60)) (Num 1000).
Proof.
  intros Hm. destruct (skipSession_spec e) as (Hst & _).
  rewrite Hst, (transitionToNext_break _ Hm). repeat split.
Qed.

(** ** The engine: presets (C4, C5, C9, C10) *)

Lemma selectPreset_state (presetName : string) (cd : CustomDurations.t)
  (e : Engine) :
  state (selectPreset presetName cd e) =
  spread (TimerStorage.initializeWithPreset presetName cd)
    (Partial.mk None None None None (Some (completedSessions (state e)))
       None None None None None).
Proof.
  unfold selectPreset; simpl. now rewrite stopTimer_state.
Qed.

(** C5.  Whatever the prior state, [selectPreset('deepwork')] yields
    [workDuration = 50], [breakDuration = 10], [remainingMs = 3000000],
    [mode = work] and the prior [completedSessions]; every other key
    comes from the preset and the defaults. *)
Theorem selectPreset_deepwork (e : Engine) :
  state (selectPreset "deepwork" CustomDurations.none e) =
  {| mode := work;
     remainingMs := Num 3000000;
     preset := "deepwork";
     isRunning := false;
     completedSessions := completedSessions (state e);
     lastTickAt := Null;
     workDuration := Num 50;
     breakDuration := Num 10;
     customWorkDuration := Num 25;
     customBreakDuration := Num 5 |}.
Proof. rewrite selectPreset_state. reflexivity. Qed.

(** C4, as stated, fails: after custom durations of 40 and 10 minutes,
    selecting ['pomodoro'] puts the custom keys back to 25 and 5. *)
Lemma selectPreset_forgets_custom_durations :
  let prior := state after_custom_40_10 in
  let next :=
    state (selectPreset "pomodoro" CustomDurations.none after_custom_40_10) in
  customWorkDuration prior = Num 40
  /\ customBreakDuration prior = Num 10
  /\ customWorkDuration next = Num 25
  /\ customBreakDuration next = Num 5
  /\ customWorkDuration next <> customWorkDuration prior
  /\ customBreakDuration next <> customBreakDuration prior.
Proof. repeat split; discriminate. Qed.

(** C4, amended.  Selecting a preset without overrides sets
    [customWorkDuration] to 25 and [customBreakDuration] to 5, the
    defaults, whatever the prior state held; with overrides each custom
    key is the override when truthy and the default otherwise.  The
    prior state is not consulted. *)
Theorem selectPreset_custom_keys (presetName : string)
  (cd : CustomDurations.t) (e : Engine) :
  customWorkDuration (state (selectPreset presetName cd e)) =
    js_or (CustomDurations.workDuration cd) (Num 25)
  /\ customBreakDuration (state (selectPreset presetName cd e)) =
    js_or (CustomDurations.breakDuration cd) (Num 5)
  /\ customWorkDuration
       (state (selectPreset presetName CustomDurations.none e)) = Num 25
  /\ customBreakDuration
       (state (selectPreset presetName CustomDurations.none e)) = Num 5.
Proof. rewrite !selectPreset_state. repeat split. Qed.

Lemma get_property_unknown (presetName : string) :
  presetName <> "pomodoro" ->
  presetName <> "deepwork" ->
  presetName <> "custom" ->
  ~ In presetName Object_prototype ->
  get_property TimerStorage.getPresets presetName = Missing.
Proof.
  intros H1 H2 H3 Hproto.
  unfold get_property, TimerStorage.getPresets, own_property.
  assert (E1 : String.eqb "pomodoro" presetName = false)
    by (apply String.eqb_neq; congruence).
  assert (E2 : String.eqb "deepwork" presetName = false)
    by (apply String.eqb_neq; congruence).
  assert (E3 : String.eqb "custom" presetName = false)
    by (apply String.eqb_neq; congruence).
  rewrite E1, E2, E3.
  destruct (existsb (String.eqb presetName) Object_prototype) eqn:Ex; auto.
  apply existsb_exists in Ex. destruct Ex as (k & Hin & Heq).
  apply String.eqb_eq in Heq. subst k. contradiction.
Qed.

(** C9, as stated, fails: the state built for an unknown name keeps
    that name in its [preset] key, so it differs from the state built
    for ['pomodoro']; and a name that the catalog object inherits from
    its prototype, such as ['toString'], is not unknown to the lookup:
    the durations read off it are [undefined]. *)
Lemma unknown_preset_is_not_pomodoro :
  TimerStorage.initializeWithPreset "classic" CustomDurations.none
    <> TimerStorage.initializeWithPreset "pomodoro" CustomDurations.none
  /\ preset (TimerStorage.initializeWithPreset "classic" CustomDurations.none)
     = "classic"
  /\ workDuration
       (TimerStorage.initializeWithPreset "toString" CustomDurations.none)
     = Undefined
  /\ remainingMs
       (TimerStorage.initializeWithPreset "toString" CustomDurations.none)
     = NaN.
Proof. repeat split. discriminate. Qed.

(** C9, amended.  For a name that is none of ['pomodoro'], ['deepwork'],
    ['custom'] and that is not inherited from [Object.prototype],
    [initializeWithPreset], and hence [selectPreset], do not fail and
    use the entry of ['pomodoro']: the resulting state is the one
    produced for ['pomodoro'] except for its [preset] key, which holds
    the given name. *)
Theorem unknown_preset_uses_pomodoro (presetName : string)
  (cd : CustomDurations.t) (e : Engine) :
  presetName <> "pomodoro" ->
  presetName <> "deepwork" ->
  presetName <> "custom" ->
  ~ In presetName Object_prototype ->
  TimerStorage.initializeWithPreset presetName cd =
    with_preset presetName (TimerStorage.initializeWithPreset "pomodoro" cd)
  /\ state (selectPreset presetName cd e) =
     with_preset presetName (state (selectPreset "pomodoro" cd e)).
Proof.
  intros H1 H2 H3 Hproto.
  assert (Hinit : TimerStorage.initializeWithPreset presetName cd =
    with_preset presetName (TimerStorage.initializeWithPreset "pomodoro" cd)).
  { unfold TimerStorage.initializeWithPreset.
    rewrite (get_property_unknown _ H1 H2 H3 Hproto).
    assert (E : String.eqb presetName "custom" = false)
      by (apply String.eqb_neq; congruence).
    rewrite E. reflexivity. }
  split; [exact Hinit |].
  rewrite !selectPreset_state, Hinit. reflexivity.
Qed.

Lemma unknown_preset_uses_pomodoro_witness :
  TimerStorage.initializeWithPreset "classic" CustomDurations.none =
    with_preset "classic"
      (TimerStorage.initializeWithPreset "pomodoro" CustomDurations.none).
Proof.
  refine (proj1 (unknown_preset_uses_pomodoro "classic" CustomDurations.none
                   about_to_complete _ _ _ _)).
  - discriminate.
  - discriminate.
  - discriminate.
  - simpl. intuition discriminate.
Defined.

(** C10.  In [selectPreset('custom', overrides)], and so in
    [setCustomDurations], an override that is 0 or absent (any falsy
    value) is replaced by the duration of the catalog entry ['custom'],
    25 for work and 5 for break, and no zero duration is stored; hence,
    the overrides being minute counts or absent, the produced state has
    positive integer durations and a positive [remainingMs], the work
    duration in milliseconds. *)
Theorem custom_durations_fall_back (workMinutes breakMinutes : jsval)
  (e : Engine) :
  let s := state (setCustomDurations workMinutes breakMinutes e) in
  s = state (selectPreset "custom"
               (CustomDurations.mk workMinutes breakMinutes) e)
  /\ (truthy workMinutes = false -> workDuration s = Num 25)
  /\ (truthy breakMinutes = false -> breakDuration s = Num 5)
  /\ (truthy workMinutes = true -> workDuration s = workMinutes)
  /\ (truthy breakMinutes = true -> breakDuration s = breakMinutes)
  /\ workDuration s <> Num 0
  /\ breakDuration s <> Num 0
  /\ remainingMs s = mul (mul (workDuration s) (Num 60)) (Num 1000)
  /\ (minutes_or_absent workMinutes = true ->
      minutes_or_absent breakMinutes = true ->
      positive_number (workDuration s) = true
      /\ positive_number (breakDuration s) = true
      /\ positive_number (remainingMs s) = true).
Proof.
  intros s. subst s. unfold setCustomDurations.
  rewrite selectPreset_state.
  destruct workMinutes as [ | | | w], breakMinutes as [ | | | b];
    simpl; unfold js_or; simpl;
    try destruct (Z.eqb_spec w 0); try destruct (Z.eqb_spec b 0);
    subst; simpl; repeat split; intros; try discriminate; try reflexivity;
    try congruence;
    repeat match goal with
           | H : (_ <=? _) = true |- _ => apply Z.leb_le in H
           end;
    try (apply Z.ltb_lt; lia).
Qed.

Lemma custom_durations_fall_back_witness :
  workDuration (state (setCustomDurations (Num 0) Undefined about_to_complete))
    = Num 25
  /\ breakDuration
       (state (setCustomDurations (Num 0) Undefined about_to_complete))
     = Num 5
  /\ positive_number
       (remainingMs
          (state (setCustomDurations (Num 0) Undefined about_to_complete)))
     = true.
Proof.
  destruct (custom_durations_fall_back (Num 0) Undefined about_to_complete)
    as (_ & Hw & Hb & _ & _ & _ & _ & _ & Hpos).
  split; [apply Hw; reflexivity | split; [apply Hb; reflexivity |]].
  apply Hpos; reflexivity.
Defined.

(** ** Progress (C7) *)

Section Clamp.

Local Open Scope Q_scope.

Lemma clamp_range (x : Q) : 0 <= clamp x /\ clamp x <= 100.
Proof.
  unfold clamp.
  destruct (Q.min_spec 100 (Qmax 0 x)) as [[? ?] | [? ?]],
           (Q.max_spec 0 x) as [[? ?] | [? ?]]; lra.
Qed.

Lemma clamp_zero (x : Q) : clamp x == 0 <-> x <= 0.
Proof.
  unfold clamp.
  destruct (Q.min_spec 100 (Qmax 0 x)) as [[? ?] | [? ?]],
           (Q.max_spec 0 x) as [[? ?] | [? ?]]; split; intros; lra.
Qed.

Lemma clamp_hundred (x : Q) : 100 <= x -> clamp x == 100.
Proof.
  unfold clamp.
  destruct (Q.min_spec 100 (Qmax 0 x)) as [[? ?] | [? ?]],
           (Q.max_spec 0 x) as [[? ?] | [? ?]]; intros; lra.
Qed.

(** The sign of [(a / t) * 100] for a positive denominator. *)
Lemma percent_nonpos (a : Z) (t : positive) :
  inject_Z a / inject_Z (Zpos t) * 100 <= 0 <-> (a <= 0)%Z.
Proof.
  unfold Qdiv, Qinv, Qmult, Qle, inject_Z; simpl. split; intros; nia.
Qed.

Lemma percent_whole (t : positive) :
  inject_Z (Zpos t) / inject_Z (Zpos t) * 100 == 100.
Proof.
  unfold Qdiv, Qinv, Qmult, Qeq, inject_Z; simpl. nia.
Qed.

End Clamp.

Lemma getProgress_formula (s : TimerState) (w b r : Z) :
  workDuration s = Num w -> 0 < w ->
  breakDuration s = Num b -> 0 < b ->
  remainingMs s = Num r ->
  let totalMs := phaseTotalMs (mode s) w b in
  TimerStorage.getProgress s =
  Fin (clamp (inject_Z (totalMs - r) / inject_Z totalMs * 100)).
Proof.
  intros Hw Hwpos Hb Hbpos Hr totalMs.
  unfold TimerStorage.getProgress. rewrite Hw, Hb, Hr, !mul_minutes.
  assert (Ht' : match mode s with
                | work => Num (w * 60000)
                | break => Num (b * 60000)
                end = Num totalMs).
  { unfold totalMs, phaseTotalMs. destruct (mode s); reflexivity. }
  rewrite Ht'. unfold div, sub, arith; simpl.
  assert (Hpos : 0 < totalMs)
    by (unfold totalMs, phaseTotalMs; destruct (mode s); lia).
  destruct (Z.eqb_spec totalMs 0); [lia | reflexivity].
Qed.

(** C7, as stated, fails: with positive durations, progress is 0 in a
    state whose [remainingMs] is not the full length of the phase (here
    1501000 against 1500000). *)
Lemma getProgress_zero_above_full_duration :
  mode loaded_after_clock_step_back = work
  /\ workDuration loaded_after_clock_step_back = Num 25
  /\ breakDuration loaded_after_clock_step_back = Num 5
  /\ remainingMs loaded_after_clock_step_back = Num 1501000
  /\ remainingMs loaded_after_clock_step_back <> Num (25 * 60000)
  /\ TimerStorage.getProgress loaded_after_clock_step_back = Fin 0.
Proof. repeat split. discriminate. Qed.

(** C7, amended.  For a state with positive integer durations and an
    integer [remainingMs], [getProgress] is
    [(totalMs - remainingMs) / totalMs * 100] clamped to [0, 100], where
    [totalMs] is the configured length of the current mode; it lies in
    [0, 100]; it equals 0 exactly when [remainingMs >= totalMs] (so in
    particular when [remainingMs = totalMs]), and it equals 100 when
    [remainingMs = 0]. *)
Theorem getProgress_bounds (s : TimerState) (w b r : Z) :
  workDuration s = Num w -> 0 < w ->
  breakDuration s = Num b -> 0 < b ->
  remainingMs s = Num r ->
  let totalMs := phaseTotalMs (mode s) w b in
  exists q : Q,
    TimerStorage.getProgress s = Fin q
    /\ q = clamp (inject_Z (totalMs - r) / inject_Z totalMs * 100)
    /\ (0 <= q)%Q /\ (q <= 100)%Q
    /\ ((q == 0)%Q <-> totalMs <= r)
    /\ (r = totalMs -> (q == 0)%Q)
    /\ (r = 0 -> (q == 100)%Q).
Proof.
  intros Hw Hwpos Hb Hbpos Hr totalMs.
  pose proof (getProgress_formula s w b r Hw Hwpos Hb Hbpos Hr) as Hf.
  fold totalMs in Hf.
  assert (Hpos : 0 < totalMs)
    by (unfold totalMs, phaseTotalMs; destruct (mode s); lia).
  destruct totalMs as [ | t | t ] eqn:Et; try lia.
  eexists; split; [exact Hf | split; [reflexivity |]].
  pose proof (clamp_range (inject_Z (Z.pos t - r) / inject_Z (Z.pos t) * 100))
    as [Hlo Hhi].
  assert (Hz : (clamp (inject_Z (Z.pos t - r) / inject_Z (Z.pos t) * 100) == 0)%Q
               <-> Z.pos t <= r).
  { rewrite clamp_zero, percent_nonpos. lia. }
  repeat split; auto; try apply Hz.
  - intros ->. apply Hz. lia.
  - intros ->. apply clamp_hundred. rewrite Z.sub_0_r, percent_whole.
    apply Qle_refl.
Qed.

Lemma getProgress_bounds_witness :
  exists q : Q,
    TimerStorage.getProgress (state about_to_complete) = Fin q
    /\ (0 <= q)%Q /\ (q <= 100)%Q.
Proof.
  destruct (getProgress_bounds (state about_to_complete) 25 5 1000)
    as (q & Hq & _ & Hlo & Hhi & _);
    [reflexivity | lia | reflexivity | lia | reflexivity | ].
  exists q. split; [exact Hq | split; [exact Hlo | exact Hhi]].
Defined.

(** ** The store: load and save (C2, C6) *)

Lemma loadState_reconciled (ls : LocalStorage) (now : Z) (p : Partial.t)
  (t r n w b : Z) (m : Mode) :
  getItemThrows ls = false ->
  item ls = Some (Json p) ->
  Partial.isRunning p = Some true ->
  Partial.lastTickAt p = Some (Num t) ->
  t <> 0 ->
  Partial.remainingMs p = Some (Num r) ->
  Partial.mode p = Some m ->
  Partial.completedSessions p = Some (Num n) ->
  Partial.workDuration p = Some (Num w) ->
  Partial.breakDuration p = Some (Num b) ->
  TimerStorage.loadState ls now =
  if Z.max 0 (r - (now - t)) =? 0
  then TimerStorage.transitionToNext (spread TimerStorage.defaultState p)
  else with_remainingMs (Num (Z.max 0 (r - (now - t))))
         (spread TimerStorage.defaultState p).
Proof.
  intros Hget Hitem Hrun Hlast Ht Hrem Hmode Hn Hw Hb.
  unfold TimerStorage.loadState. rewrite Hget, Hitem. cbn [JSON_parse].
  rewrite Hrun, Hlast. cbn [pick Partial.read truthy andb].
  destruct (Z.eqb_spec t 0) as [| _]; [contradiction |]. cbn [negb].
  unfold TimerStorage.reconcile. rewrite Hlast, Hrem.
  destruct p as [pm pr pp pi pc pl pw pb pcw pcb]; simpl in *.
  subst pm pr pi pc pl pw pb.
  unfold sub, arith; simpl.
  destruct (Z.max 0 (r - (now - t)) =? 0); [| reflexivity].
  destruct m; reflexivity.
Qed.

Lemma defined_number (o : option Z) : defined (Some (number o)) = true.
Proof. destruct o; reflexivity. Qed.

Lemma parsed_value_defined (o : option jsval) :
  parsed_value o = true -> defined o = true.
Proof. destruct o as [[]|]; simpl; congruence. Qed.

Lemma parsed_object_defined (p : Partial.t) :
  parsed_object p = true -> defined_object p = true.
Proof.
  unfold parsed_object, defined_object. rewrite !andb_true_iff.
  intros H. decompose [and] H. repeat split; now apply parsed_value_defined.
Qed.

Lemma reconcile_defined (now : Z) (p : Partial.t) :
  defined_object p = true ->
  defined_object (TimerStorage.reconcile now p) = true.
Proof.
  unfold defined_object. rewrite !andb_true_iff. intros H. decompose [and] H.
  unfold TimerStorage.reconcile.
  destruct (is_zero _); [destruct (Partial.mode _) as [[|]|] |];
    cbn [Partial.set_remainingMs Partial.set_isRunning
         Partial.set_completedSessions Partial.set_mode
         Partial.remainingMs Partial.completedSessions Partial.lastTickAt
         Partial.workDuration Partial.breakDuration
         Partial.customWorkDuration Partial.customBreakDuration];
    unfold Math_max0, mul, add, sub, arith; rewrite ?defined_number;
    repeat split; assumption.
Qed.

Lemma pick_defined (d : jsval) (o : option jsval) :
  d <> Undefined -> defined o = true ->
  negb (jsval_eqb (pick d o) Undefined) = true.
Proof.
  intros Hd Ho. destruct o as [[]|]; simpl in *; try congruence.
  destruct d; simpl; congruence.
Qed.

Lemma spread_defaults_populated (p : Partial.t) :
  defined_object p = true ->
  populated (spread TimerStorage.defaultState p) = true.
Proof.
  unfold defined_object, populated. rewrite !andb_true_iff.
  intros H. decompose [and] H.
  repeat split; cbn [spread remainingMs completedSessions lastTickAt
                      workDuration breakDuration customWorkDuration
                      customBreakDuration TimerStorage.defaultState];
    apply pick_defined; try assumption; discriminate.
Qed.

(** Whatever the storage holds, [loadState] returns a state without a
    key that reads as [undefined]. *)
Lemma loadState_populated (ls : LocalStorage) (now : Z) :
  (forall p, item ls = Some (Json p) -> parsed_object p = true) ->
  populated (TimerStorage.loadState ls now) = true.
Proof.
  intros Hparsed. unfold TimerStorage.loadState.
  destruct (getItemThrows ls); [reflexivity |].
  destruct (item ls) as [[| p] |]; try reflexivity.
  cbn [JSON_parse].
  pose proof (parsed_object_defined p (Hparsed p eq_refl)) as Hdef.
  apply spread_defaults_populated.
  destruct (_ && _); [now apply reconcile_defined | exact Hdef].
Qed.

(** The reconciliation on the records [saveState] writes.  Whatever
    the storage holds, no key of the state returned by [loadState()]
    reads as [undefined].  Let the storage hold a record with
    [isRunning = true] and [lastTickAt] a timestamp [t] (non-null; the
    source tests it for truthiness, so the instant [0] itself reads as
    unset), the keys read by the reconciliation being present with the
    types of the data model.  Then [loadState()] at time [now] subtracts
    [elapsed = now - t] from [remainingMs], floored at 0.  When the
    result is not 0 it is the new [remainingMs] and nothing else changes.
    When it is 0 the returned state is one application of the transition
    rule: [isRunning = false], the mode flipped, [remainingMs] the full
    length of the next phase, [completedSessions] incremented exactly
    when the expired phase was [work]. *)
Theorem loadState_reconciles_elapsed_time (ls : LocalStorage) (now : Z) :
  ((forall p, item ls = Some (Json p) -> parsed_object p = true) ->
   populated (TimerStorage.loadState ls now) = true)
  /\ (forall (p : Partial.t) (t r n w b : Z) (m : Mode),
      getItemThrows ls = false ->
      item ls = Some (Json p) ->
      Partial.isRunning p = Some true ->
      Partial.lastTickAt p = Some (Num t) ->
      t <> 0 ->
      Partial.remainingMs p = Some (Num r) ->
      Partial.mode p = Some m ->
      Partial.completedSessions p = Some (Num n) ->
      Partial.workDuration p = Some (Num w) ->
      Partial.breakDuration p = Some (Num b) ->
      let elapsed := now - t in
      let left := Z.max 0 (r - elapsed) in
      let merged := spread TimerStorage.defaultState p in
      let s := TimerStorage.loadState ls now in
      (left <> 0 -> s = with_remainingMs (Num left) merged)
      /\ (left = 0 ->
          s = TimerStorage.transitionToNext merged
          /\ isRunning s = false
          /\ mode s = TimerStorage.getNextMode merged
          /\ mode s <> m
          /\ remainingMs s = Num (phaseTotalMs (mode s) w b)
          /\ completedSessions s =
             Num (match m with work => n + 1 | break => n end)
          /\ preset s = preset merged
          /\ lastTickAt s = lastTickAt merged
          /\ workDuration s = Num w
          /\ breakDuration s = Num b
          /\ customWorkDuration s = customWorkDuration merged
          /\ customBreakDuration s = customBreakDuration merged)).
Proof.
  split; [apply loadState_populated |].
  intros p t r n w b m Hget Hitem Hrun Hlast Ht Hrem Hmode Hn Hw Hb
    elapsed left merged s.
  pose proof (loadState_reconciled ls now p t r n w b m Hget Hitem Hrun Hlast
                Ht Hrem Hmode Hn Hw Hb) as Hload.
  fold elapsed left merged s in Hload.
  destruct p as [pm pr pp pi pc pl pw pb pcw pcb]; simpl in *.
  subst pm pr pi pc pl pw pb.
  split.
  - intros Hleft. rewrite Hload.
    destruct (Z.eqb_spec left 0); [contradiction | reflexivity].
  - intros Hleft. rewrite Hload, Hleft. cbn [Z.eqb].
    unfold merged. destruct m; simpl; rewrite ?mul_minutes;
      repeat split; try discriminate; f_equal; lia.
Qed.

Lemma loadState_reconciles_elapsed_time_witness :
  populated (TimerStorage.loadState stored_30s_ago 1700000000000) = true
  /\ isRunning (TimerStorage.loadState stored_30s_ago 1700000000000) = false
  /\ completedSessions (TimerStorage.loadState stored_30s_ago 1700000000000)
     = Num 3.
Proof.
  destruct (loadState_reconciles_elapsed_time stored_30s_ago 1700000000000)
    as (Hpop & Hrec).
  split.
  - apply Hpop. intros p Hp. injection Hp as <-. reflexivity.
  - destruct (Hrec (Partial.mk (Some work) (Some (Num 10000))
                      (Some "pomodoro") (Some true) (Some (Num 2))
                      (Some (Num (1700000000000 - 30000)))
                      (Some (Num 25)) (Some (Num 5)) (Some (Num 25))
                      (Some (Num 5)))
                   (1700000000000 - 30000) 10000 2 25 5 work)
      as (_ & Hexp);
      [reflexivity | reflexivity | reflexivity | reflexivity | lia
      | reflexivity | reflexivity | reflexivity | reflexivity
      | reflexivity | ].
    destruct Hexp as (_ & Hrun & _ & _ & _ & Hcount & _); [reflexivity |].
    split; [exact Hrun | exact Hcount].
Defined.

(** C2.  [loadState()] reconciles the elapsed time on the parsed record
    and merges the defaults only afterwards, so the reconciliation reads
    the keys the record lacks as [undefined] and the values it computes
    from them shadow the defaults.  Let the storage hold a record with
    [isRunning = true] and [lastTickAt] a timestamp [t].  Without
    [remainingMs], the returned state has [remainingMs = NaN] and still
    runs, where the merged defaults hold 1500000.  With a [work] phase
    that has expired, the returned state is in [break] and stopped, but
    without [completedSessions] in the record the count is NaN instead
    of one more than the default 0, and without [breakDuration] the
    countdown is NaN although the returned [breakDuration] is the
    default 5; likewise for an expired [break] without [workDuration].
    In none of these cases is the returned state the transition of the
    merged record, and it is not numeric.  The same record with
    [isRunning = false] is just merged over the defaults. *)
Theorem loadState_reconciles_before_merging_defaults (ls : LocalStorage)
  (now t : Z) (p : Partial.t) :
  getItemThrows ls = false ->
  item ls = Some (Json p) ->
  Partial.isRunning p = Some true ->
  Partial.lastTickAt p = Some (Num t) ->
  t <> 0 ->
  let s := TimerStorage.loadState ls now in
  let merged := spread TimerStorage.defaultState p in
  (Partial.remainingMs p = None ->
   remainingMs s = NaN /\ isRunning s = true
   /\ remainingMs merged = Num 1500000 /\ numeric s = false)
  /\ (forall r,
        Partial.remainingMs p = Some (Num r) -> r <= now - t ->
        Partial.mode p = Some work ->
        mode s = break /\ isRunning s = false
        /\ (Partial.completedSessions p = None ->
            completedSessions s = NaN
            /\ completedSessions (TimerStorage.transitionToNext merged)
               = Num 1
            /\ numeric s = false)
        /\ (Partial.breakDuration p = None ->
            remainingMs s = NaN /\ breakDuration s = Num 5
            /\ remainingMs (TimerStorage.transitionToNext merged)
               = Num 300000
            /\ numeric s = false))
  /\ (forall r,
        Partial.remainingMs p = Some (Num r) -> r <= now - t ->
        Partial.mode p = Some break ->
        Partial.workDuration p = None ->
        mode s = work /\ isRunning s = false
        /\ remainingMs s = NaN /\ workDuration s = Num 25
        /\ remainingMs (TimerStorage.transitionToNext merged) = Num 1500000
        /\ numeric s = false)
  /\ TimerStorage.loadState
       (mkLocalStorage (Some (Json (Partial.set_isRunning false p)))
          false (setItemThrows ls) (removeItemThrows ls)) now
     = spread TimerStorage.defaultState (Partial.set_isRunning false p).
Proof.
  intros Hget Hitem Hrun Hlast Ht s merged.
  assert (Hs : s = spread TimerStorage.defaultState
                     (TimerStorage.reconcile now p)).
  { unfold s, TimerStorage.loadState. rewrite Hget, Hitem. simpl.
    rewrite Hrun, Hlast. simpl.
    destruct (Z.eqb_spec t 0); [contradiction | reflexivity]. }
  destruct p as [pm pr pp pi pc pl pw pb pcw pcb]; simpl in *.
  subst pi pl.
  split; [| split; [| split]].
  - intros ->. rewrite Hs. unfold merged. repeat split.
  - intros r -> Hr ->. rewrite Hs.
    unfold TimerStorage.reconcile; simpl.
    unfold sub, arith, Math_max0; simpl.
    rewrite Z.max_l by lia. simpl.
    split; [reflexivity |]. split; [reflexivity |].
    split; intros ->; unfold merged; simpl; repeat split.
    destruct pb as [[ | | | b] |]; reflexivity.
  - intros r -> Hr -> ->. rewrite Hs.
    unfold TimerStorage.reconcile; simpl.
    unfold sub, arith, Math_max0; simpl.
    rewrite Z.max_l by lia. simpl.
    unfold merged; simpl. repeat split.
  - reflexivity.
Qed.

Lemma loadState_reconciles_before_merging_defaults_witness :
  let s := TimerStorage.loadState stored_without_durations 1700000000000 in
  mode s = break /\ isRunning s = false
  /\ completedSessions s = NaN
  /\ remainingMs s = NaN /\ breakDuration s = Num 5.
Proof.
  destruct (loadState_reconciles_before_merging_defaults
              stored_without_durations 1700000000000
              (1700000000000 - 30000)
              (Partial.mk (Some work) (Some (Num 10000)) None (Some true)
                 None (Some (Num (1700000000000 - 30000))) None None None
                 None))
    as (_ & Hexp & _);
    [reflexivity | reflexivity | reflexivity | reflexivity | lia |].
  destruct (Hexp 10000) as (Hmode & Hrun & Hcount & Hrem);
    [reflexivity | lia | reflexivity |].
  destruct (Hcount eq_refl) as (Hc & _).
  destruct (Hrem eq_refl) as (Hr & Hb & _).
  cbv zeta. repeat split; assumption.
Defined.

(** C6.  For a state with [isRunning = false] whose counters and
    durations are integers, [saveState] followed by [loadState] (the
    storage working) returns the state itself with [lastTickAt] set to
    [null]; this holds whatever time has passed in between. *)
Theorem save_load_roundtrip (s : TimerState) (ls : LocalStorage)
  (now later : Z) :
  isRunning s = false ->
  numeric s = true ->
  setItemThrows ls = false ->
  getItemThrows ls = false ->
  TimerStorage.loadState (TimerStorage.saveState s now ls) later =
  with_lastTickAt Null s
  /\ lastTickAt
       (TimerStorage.loadState (TimerStorage.saveState s now ls) later)
     = Null.
Proof.
  intros Hrun Hnum Hset Hget.
  unfold TimerStorage.saveState, TimerStorage.loadState.
  rewrite Hset; simpl. rewrite Hget, Hrun; simpl.
  destruct s as [sm sr sp si sc sl sw sb scw scb]; simpl in *.
  unfold numeric in Hnum; simpl in Hnum.
  destruct sr; try discriminate; destruct sc; try discriminate;
    destruct sw; try discriminate; destruct sb; try discriminate;
    destruct scw; try discriminate; destruct scb; try discriminate.
  subst si. split; reflexivity.
Qed.

Lemma save_load_roundtrip_witness :
  TimerStorage.loadState
    (TimerStorage.saveState paused_with_old_timestamp 1700000000000
       fresh_storage) 1700000000000
  = with_lastTickAt Null paused_with_old_timestamp.
Proof.
  refine (proj1 (save_load_roundtrip paused_with_old_timestamp fresh_storage
                   1700000000000 1700000000000 _ _ _ _)); reflexivity.
Defined.

(** ** The session count (C8) *)

Lemma tick_not_running (e : Engine) :
  isRunning (state e) = false -> state (tick e) = state e.
Proof.
  intros Hrun. unfold tick. rewrite Hrun. apply stopTimer_state.
Qed.

Lemma tick_counts_down (e : Engine) (r : Z) :
  isRunning (state e) = true ->
  remainingMs (state e) = Num r ->
  1000 < r ->
  state (tick e) = with_remainingMs (Num (r - 1000)) (state e).
Proof.
  intros Hrun Hrem Hr. unfold tick. rewrite Hrun, Hrem.
  unfold sub, arith, Math_max0; simpl.
  rewrite Z.max_r by lia.
  destruct (Z.eqb_spec (r - 1000) 0); [lia | reflexivity].
Qed.

Lemma tick_expires (e : Engine) (r : Z) :
  isRunning (state e) = true ->
  remainingMs (state e) = Num r ->
  r <= 1000 ->
  state (tick e) = TimerStorage.transitionToNext (state e).
Proof.
  intros Hrun Hrem Hr. unfold tick. rewrite Hrun, Hrem.
  unfold sub, arith, Math_max0; simpl.
  rewrite Z.max_l by lia. simpl.
  apply (handleTimerComplete_spec e).
Qed.



Lemma resetAll_state (e : Engine) :
  state (resetAll e) =
  TimerStorage.loadState (TimerStorage.clearState (storage e)) (clock e).
Proof.
  unfold resetAll; simpl. now rewrite stopTimer_storage, stopTimer_clock.
Qed.



(** ** Further checks of the model *)

Example formatTime_examples :
  TimerStorage.formatTime (Num 0) = "00:00"
  /\ TimerStorage.formatTime (Num 1) = "00:01"
  /\ TimerStorage.formatTime (Num 90000) = "01:30"
  /\ getFormattedTime about_to_complete = "00:01".
Proof. repeat split. Qed.

(** The trace of a skip in a freshly constructed engine: the mode switch
    is reported from [break] to [break]. *)
Example skipSession_on_a_fresh_engine :
  emitted (skipSession (constructor fresh_storage 1700000000000)) =
  [ onStateChange (keys_of TimerStorage.defaultState)
      (TimerStorage.transitionToNext TimerStorage.defaultState);
    onModeSwitch break break (Num 1) ].
Proof. reflexivity. Qed.

(** The trace of a natural completion reports the switch from [work]
    to [break]. *)
Example tick_on_the_last_second :
  emitted (tick about_to_complete) =
  [ onStateChange (keys_of (state about_to_complete))
      (TimerStorage.transitionToNext (state about_to_complete));
    onComplete work break (Num 4);
    onModeSwitch work break (Num 4) ].
Proof. reflexivity. Qed.

Lemma start_then_pause (e : Engine) :
  isRunning (state e) = false ->
  remainingMs (state (pause (start e))) = remainingMs (state e)
  /\ isRunning (state (pause (start e))) = false
  /\ intervalId (pause (start e)) = None.
Proof.
  intros Hrun. unfold start. rewrite Hrun. unfold pause; simpl.
  repeat split.
Qed.

Lemma resetAll_then_load (e : Engine) (later : Z) :
  removeItemThrows (storage e) = false ->
  TimerStorage.loadState (storage (resetAll e)) later =
  TimerStorage.defaultState.
Proof.
  intros Hrem. unfold resetAll; simpl. rewrite stopTimer_storage.
  unfold TimerStorage.clearState. rewrite Hrem.
  unfold TimerStorage.loadState; simpl.
  destruct (getItemThrows (storage e)); reflexivity.
Qed.

(** * Further properties of the code *)

(** ** The transition rule, twice *)

(** X1.  Two transitions in a row come back to the mode they started
    from, whatever it was, with the countdown set to the full length of
    that mode and the engine stopped; exactly one session has been
    counted on the way (the [work] phase of the pair); the preset, the
    durations, the custom durations and [lastTickAt] are untouched. *)
Theorem transitionToNext_twice (s : TimerState) (n w b : Z) :
  completedSessions s = Num n ->
  workDuration s = Num w ->
  breakDuration s = Num b ->
  TimerStorage.transitionToNext (TimerStorage.transitionToNext s) =
  {| mode := mode s;
     remainingMs := Num (phaseTotalMs (mode s) w b);
     preset := preset s;
     isRunning := false;
     completedSessions := Num (n + 1);
     lastTickAt := lastTickAt s;
     workDuration := Num w;
     breakDuration := Num b;
     customWorkDuration := customWorkDuration s;
     customBreakDuration := customBreakDuration s |}.
Proof.
  intros Hn Hw Hb. destruct s as [m r p i c l wd bd cw cb]; simpl in *.
  subst c wd bd. unfold TimerStorage.transitionToNext; simpl.
  destruct m; simpl; rewrite !mul_minutes; unfold add, arith; simpl;
    reflexivity.
Qed.

Lemma transitionToNext_twice_witness :
  TimerStorage.transitionToNext
    (TimerStorage.transitionToNext paused_with_old_timestamp) =
  {| mode := break; remainingMs := Num 600000; preset := "deepwork";
     isRunning := false; completedSessions := Num 8;
     lastTickAt := Num 1699999990000;
     workDuration := Num 50; breakDuration := Num 10;
     customWorkDuration := Num 40; customBreakDuration := Num 10 |}.
Proof.
  exact (transitionToNext_twice paused_with_old_timestamp 7 50 10
           eq_refl eq_refl eq_refl).
Defined.

(** ** Single operations of the engine *)

Lemma updateState_spec (updates : Partial.t) (e : Engine) :
  updateState updates e =
  mkEngine (spread (state e) updates) (intervalId e) (handles e)
    (TimerStorage.saveState (spread (state e) updates) (clock e) (storage e))
    (clock e)
    (emitted e ++ [onStateChange (keys_of (state e)) (spread (state e) updates)]).
Proof. reflexivity. Qed.

Lemma stopTimer_handles (e : Engine) : handles (stopTimer e) = handles e.
Proof. unfold stopTimer; destruct (intervalId e); reflexivity. Qed.

(** X2.  A tick of a running engine with more than one second left takes
    exactly 1000 ms off [remainingMs] and changes no other key; the
    engine keeps running on the same interval; the tick announces the
    state change and then emits [onTick] with the new [remainingMs], its
    [mm:ss] text and the progress of the new state; the record it saves
    is stamped with the current time. *)
Theorem tick_counts_one_second_down (e : Engine) (r : Z) :
  isRunning (state e) = true ->
  remainingMs (state e) = Num r ->
  1000 < r ->
  let e' := tick e in
  state e' = with_remainingMs (Num (r - 1000)) (state e)
  /\ intervalId e' = intervalId e
  /\ emitted e' =
     (emitted e ++
      [ onStateChange (keys_of (state e)) (state e');
        onTick (Num (r - 1000)) (TimerStorage.formatTime (Num (r - 1000)))
          (TimerStorage.getProgress (state e')) ])%list
  /\ storage e' = TimerStorage.saveState (state e') (clock e) (storage e)
  /\ (setItemThrows (storage e) = false ->
      exists o, stored (storage e') = Some o
                /\ Partial.remainingMs o = Some (Num (r - 1000))
                /\ Partial.isRunning o = Some true
                /\ Partial.lastTickAt o = Some (Num (clock e))).
Proof.
  intros Hrun Hrem Hr e'.
  assert (He' : e' =
    emit (onTick (Num (r - 1000)) (TimerStorage.formatTime (Num (r - 1000)))
            (TimerStorage.getProgress
               (with_remainingMs (Num (r - 1000)) (state e))))
      (updateState (Partial.set_remainingMs (Num (r - 1000)) Partial.empty) e)).
  { unfold e', tick. rewrite Hrun, Hrem.
    unfold sub, arith, Math_max0; simpl. rewrite Z.max_r by lia.
    destruct (Z.eqb_spec (r - 1000) 0); [lia | reflexivity]. }
  rewrite He', updateState_spec; unfold emit; simpl.
  repeat split.
  - now rewrite <- app_assoc.
  - intros Hset. unfold TimerStorage.saveState. rewrite Hset. cbn.
    rewrite Hrun. eexists; repeat split; reflexivity.
Qed.

Lemma tick_counts_one_second_down_witness :
  remainingMs
    (state (tick (start (constructor fresh_storage 1700000000000))))
  = Num 1499000.
Proof.
  destruct (tick_counts_one_second_down
              (start (constructor fresh_storage 1700000000000)) 1500000)
    as (Hst & _); [reflexivity | reflexivity | lia |].
  rewrite Hst. reflexivity.
Defined.

(** X3.  A tick of a running engine with at most one second left, in
    either mode and also with a fraction of a second left, ends the
    phase: the state is the transition of the old one (no 0 and no
    negative value is ever stored), the interval is cancelled, and the
    state change, [onComplete] and [onModeSwitch] are emitted in that
    order, both reporting the mode that ended, the mode that follows and
    the new session count. *)
Theorem tick_ends_the_phase (e : Engine) (r : Z) :
  isRunning (state e) = true ->
  remainingMs (state e) = Num r ->
  r <= 1000 ->
  let e' := tick e in
  let next := TimerStorage.transitionToNext (state e) in
  state e' = next
  /\ isRunning (state e') = false
  /\ intervalId e' = None
  /\ emitted e' =
     (emitted e ++
      [ onStateChange (keys_of (state e)) next;
        onComplete (mode (state e)) (TimerStorage.getNextMode (state e))
          (completedSessions next);
        onModeSwitch (mode (state e)) (TimerStorage.getNextMode (state e))
          (completedSessions next) ])%list
  /\ storage e' = TimerStorage.saveState next (clock e) (storage e).
Proof.
  intros Hrun Hrem Hr e' next.
  assert (He' : e' = handleTimerComplete e).
  { unfold e', tick. rewrite Hrun, Hrem.
    unfold sub, arith, Math_max0; simpl. rewrite Z.max_l by lia.
    reflexivity. }
  destruct (handleTimerComplete_spec e) as (Hst & Hint & Hsto & Hem).
  rewrite <- He' in Hst, Hint, Hsto, Hem. fold next in Hst, Hsto, Hem.
  rewrite Hst. repeat split; auto.
Qed.

Lemma tick_ends_the_phase_witness :
  emitted (tick half_a_second_of_break_left) =
  [ onStateChange (keys_of (state half_a_second_of_break_left))
      (TimerStorage.transitionToNext (state half_a_second_of_break_left));
    onComplete break work (Num 3);
    onModeSwitch break work (Num 3) ].
Proof.
  destruct (tick_ends_the_phase half_a_second_of_break_left 500)
    as (_ & _ & _ & Hem & _); [reflexivity | reflexivity | lia |].
  exact Hem.
Defined.

(** X4.  A tick of an engine that is not running changes neither the
    state nor the storage and emits nothing; it only cancels the
    interval that called it. *)
Theorem tick_of_a_paused_engine (e : Engine) :
  isRunning (state e) = false ->
  state (tick e) = state e
  /\ emitted (tick e) = emitted e
  /\ storage (tick e) = storage e
  /\ clock (tick e) = clock e
  /\ intervalId (tick e) = None.
Proof.
  intros Hrun. unfold tick. rewrite Hrun; simpl.
  rewrite stopTimer_state, stopTimer_emitted, stopTimer_storage,
    stopTimer_clock, stopTimer_intervalId. repeat split.
Qed.

Lemma tick_of_a_paused_engine_witness :
  state (tick (constructor fresh_storage 1700000000000)) =
  TimerStorage.defaultState.
Proof.
  destruct (tick_of_a_paused_engine (constructor fresh_storage 1700000000000))
    as (Hst & _); [reflexivity |].
  rewrite Hst. reflexivity.
Defined.

Lemma set_isRunning_same (s : TimerState) :
  spread s (Partial.mk None None None (Some (isRunning s)) None None None
              None None None) = s.
Proof. destruct s; reflexivity. Qed.

Lemma start_state (e : Engine) :
  state (start e) =
  spread (state e)
    (Partial.mk None None None (Some true) None None None None None None).
Proof.
  unfold start. destruct (isRunning (state e)) eqn:E; [| reflexivity].
  rewrite <- E. symmetry. apply set_isRunning_same.
Qed.

Lemma pause_state (e : Engine) :
  state (pause e) =
  spread (state e)
    (Partial.mk None None None (Some false) None None None None None None).
Proof.
  unfold pause. destruct (isRunning (state e)) eqn:E; simpl.
  - now rewrite stopTimer_state.
  - rewrite <- E. symmetry. apply set_isRunning_same.
Qed.

Lemma toggle_state (e : Engine) :
  state (toggle e) =
  spread (state e)
    (Partial.mk None None None (Some (negb (isRunning (state e)))) None
       None None None None None).
Proof.
  unfold toggle. destruct (isRunning (state e));
    [apply pause_state | apply start_state].
Qed.

(** X5.  [start] and [pause] are idempotent (the second call is the
    guarded no-op: nothing is saved or emitted again); after [start] the
    state is running, after [pause] it is not; two [toggle]s in a row
    give back the state they started from, in whichever of the two
    states the engine was, having emitted exactly two state changes;
    none of them touches any key but [isRunning]. *)
Theorem start_pause_toggle (e : Engine) :
  start (start e) = start e
  /\ pause (pause e) = pause e
  /\ isRunning (state (start e)) = true
  /\ isRunning (state (pause e)) = false
  /\ state (start e) =
     spread (state e)
       (Partial.mk None None None (Some true) None None None None None None)
  /\ state (pause e) =
     spread (state e)
       (Partial.mk None None None (Some false) None None None None None None)
  /\ state (toggle e) =
     spread (state e)
       (Partial.mk None None None (Some (negb (isRunning (state e)))) None
          None None None None None)
  /\ state (toggle (toggle e)) = state e
  /\ exists s1,
       emitted (toggle (toggle e)) =
       (emitted e ++
        [ onStateChange (keys_of (state e)) s1;
          onStateChange (keys_of s1) (state e) ])%list.
Proof.
  assert (Hs : forall e0, isRunning (state (start e0)) = true).
  { intros e0. unfold start. destruct (isRunning (state e0)) eqn:E;
      [exact E | reflexivity]. }
  assert (Hp : forall e0, isRunning (state (pause e0)) = false).
  { intros e0. unfold pause. destruct (isRunning (state e0)) eqn:E;
      [reflexivity | exact E]. }
  assert (Hss : state (start e) =
     spread (state e)
       (Partial.mk None None None (Some true) None None None None None None)).
  { unfold start. destruct (isRunning (state e)) eqn:E; [| reflexivity].
    rewrite <- E. symmetry. apply set_isRunning_same. }
  assert (Hps : state (pause e) =
     spread (state e)
       (Partial.mk None None None (Some false) None None None None None None)).
  { unfold pause. destruct (isRunning (state e)) eqn:E; simpl.
    - now rewrite stopTimer_state.
    - rewrite <- E. symmetry. apply set_isRunning_same. }
  split; [unfold start at 1; now rewrite Hs |].
  split; [unfold pause at 1; now rewrite Hp |].
  split; [apply Hs |]. split; [apply Hp |].
  split; [exact Hss |]. split; [exact Hps |].
  split.
  { unfold toggle. destruct (isRunning (state e)); assumption. }
  unfold toggle. destruct (isRunning (state e)) eqn:E.
  - rewrite Hp. split.
    + unfold start. rewrite Hp. simpl. unfold pause. rewrite E. simpl.
      rewrite stopTimer_state. destruct (state e); simpl in *. now subst.
    + unfold start. rewrite Hp. simpl. unfold pause. rewrite E. simpl.
      rewrite stopTimer_state, stopTimer_emitted, <- app_assoc. simpl.
      eexists. f_equal. f_equal. f_equal.
      destruct (state e); simpl in *. now subst.
  - rewrite Hs. split.
    + unfold pause. rewrite Hs. simpl. rewrite stopTimer_state.
      unfold start. rewrite E. simpl.
      destruct (state e); simpl in *. now subst.
    + unfold pause. rewrite Hs. simpl.
      rewrite stopTimer_state, stopTimer_emitted.
      unfold start. rewrite E. simpl. rewrite <- app_assoc. simpl.
      eexists. f_equal. f_equal. f_equal.
      destruct (state e); simpl in *. now subst.
Qed.

Lemma reset_state (e : Engine) :
  state (reset e) =
  {| mode := mode (state e);
     remainingMs :=
       match mode (state e) with
       | work => mul (mul (workDuration (state e)) (Num 60)) (Num 1000)
       | break => mul (mul (breakDuration (state e)) (Num 60)) (Num 1000)
       end;
     preset := preset (state e);
     isRunning := false;
     completedSessions := completedSessions (state e);
     lastTickAt := lastTickAt (state e);
     workDuration := workDuration (state e);
     breakDuration := breakDuration (state e);
     customWorkDuration := customWorkDuration (state e);
     customBreakDuration := customBreakDuration (state e) |}.
Proof.
  unfold reset. rewrite updateState_spec; simpl.
  rewrite stopTimer_state. reflexivity.
Qed.

Lemma reset_intervalId (e : Engine) : intervalId (reset e) = None.
Proof.
  unfold reset. rewrite updateState_spec; simpl. apply stopTimer_intervalId.
Qed.

Lemma reset_emitted (e : Engine) :
  emitted (reset e) =
  (emitted e ++ [onStateChange (keys_of (state e)) (state (reset e))])%list.
Proof.
  unfold reset. rewrite updateState_spec; simpl.
  now rewrite stopTimer_state, stopTimer_emitted.
Qed.

(** ** Invariants of runs *)

Lemma saveState_flags (s : TimerState) (now : Z) (ls : LocalStorage) :
  getItemThrows (TimerStorage.saveState s now ls) = getItemThrows ls
  /\ setItemThrows (TimerStorage.saveState s now ls) = setItemThrows ls
  /\ removeItemThrows (TimerStorage.saveState s now ls) = removeItemThrows ls.
Proof.
  unfold TimerStorage.saveState. destruct (setItemThrows ls) eqn:E; simpl; auto.
Qed.

Lemma clearState_flags (ls : LocalStorage) :
  getItemThrows (TimerStorage.clearState ls) = getItemThrows ls
  /\ setItemThrows (TimerStorage.clearState ls) = setItemThrows ls
  /\ removeItemThrows (TimerStorage.clearState ls) = removeItemThrows ls.
Proof.
  unfold TimerStorage.clearState. destruct (removeItemThrows ls) eqn:E;
    simpl; auto.
Qed.

Lemma same_flags_refl (a : LocalStorage) : same_flags a a.
Proof. repeat split. Qed.

Lemma updateState_flags (u : Partial.t) (e : Engine) :
  same_flags (storage (updateState u e)) (storage e).
Proof. rewrite updateState_spec; simpl. apply saveState_flags. Qed.

Lemma same_flags_trans (a b c : LocalStorage) :
  same_flags a b -> same_flags b c -> same_flags a c.
Proof.
  intros (H1 & H2 & H3) (H4 & H5 & H6). repeat split; congruence.
Qed.

Lemma tick_flags (e : Engine) : same_flags (storage (tick e)) (storage e).
Proof.
  unfold tick. destruct (negb _).
  - rewrite stopTimer_storage. apply same_flags_refl.
  - destruct (is_zero _).
    + rewrite (proj1 (proj2 (proj2 (handleTimerComplete_spec e)))).
      apply saveState_flags.
    + simpl. apply saveState_flags.
Qed.

Lemma run_flags (c : Command) (e : Engine) :
  same_flags (storage (run c e)) (storage e).
Proof.
  destruct c; simpl.
  - unfold start. destruct (isRunning _); [apply same_flags_refl |].
    simpl. apply saveState_flags.
  - unfold pause. destruct (negb _); [apply same_flags_refl |].
    eapply same_flags_trans; [apply updateState_flags |].
    rewrite stopTimer_storage. apply same_flags_refl.
  - unfold toggle, start, pause.
    destruct (isRunning _); simpl.
    + eapply same_flags_trans; [apply saveState_flags |].
      rewrite stopTimer_storage. apply same_flags_refl.
    + apply saveState_flags.
  - unfold reset. eapply same_flags_trans; [apply updateState_flags |].
    rewrite stopTimer_storage. apply same_flags_refl.
  - unfold selectPreset; simpl.
    eapply same_flags_trans; [apply saveState_flags |].
    rewrite stopTimer_storage. apply same_flags_refl.
  - unfold setCustomDurations, selectPreset; simpl.
    eapply same_flags_trans; [apply saveState_flags |].
    rewrite stopTimer_storage. apply same_flags_refl.
  - unfold skipSession; simpl.
    eapply same_flags_trans; [apply saveState_flags |].
    rewrite stopTimer_storage. apply same_flags_refl.
  - unfold resetAll; simpl.
    eapply same_flags_trans; [apply clearState_flags |].
    rewrite stopTimer_storage. apply same_flags_refl.
  - unfold fire. destruct (intervalId e); [apply tick_flags |].
    apply same_flags_refl.
  - apply same_flags_refl.
Qed.

Lemma run_all_flags (cs : list Command) (e : Engine) :
  same_flags (storage (run_all cs e)) (storage e).
Proof.
  revert e. induction cs as [| c cs IH]; intros e; simpl.
  - apply same_flags_refl.
  - eapply same_flags_trans; [apply IH | apply run_flags].
Qed.

Lemma loadState_cleared (ls : LocalStorage) (now : Z) :
  removeItemThrows ls = false ->
  TimerStorage.loadState (TimerStorage.clearState ls) now =
  TimerStorage.defaultState.
Proof.
  intros H. unfold TimerStorage.clearState. rewrite H.
  unfold TimerStorage.loadState; simpl.
  destruct (getItemThrows ls); reflexivity.
Qed.

Lemma tick_scheduled (e : Engine) :
  scheduled e = true -> scheduled (tick e) = true.
Proof.
  intros H. unfold tick. destruct (isRunning (state e)) eqn:Hrun; simpl.
  - destruct (is_zero _).
    + destruct (handleTimerComplete_spec e) as (Hst & Hint & _).
      unfold scheduled. rewrite Hint, Hst. reflexivity.
    + unfold scheduled in *; simpl. now rewrite Hrun in *.
  - unfold scheduled. now rewrite stopTimer_intervalId, stopTimer_state, Hrun.
Qed.

Lemma run_scheduled (c : Command) (e : Engine) :
  removeItemThrows (storage e) = false ->
  scheduled e = true ->
  scheduled (run c e) = true.
Proof.
  intros Hrem H. destruct c; simpl.
  - unfold start. destruct (isRunning (state e)) eqn:E; [exact H |].
    reflexivity.
  - unfold pause. destruct (isRunning (state e)) eqn:E; simpl; [| exact H].
    unfold scheduled; simpl. now rewrite stopTimer_intervalId.
  - unfold toggle, start, pause. destruct (isRunning (state e)) eqn:E; simpl.
    + unfold scheduled; simpl. now rewrite stopTimer_intervalId.
    + reflexivity.
  - unfold reset, scheduled; simpl. now rewrite stopTimer_intervalId.
  - unfold selectPreset, scheduled; simpl. now rewrite stopTimer_intervalId.
  - unfold setCustomDurations, selectPreset, scheduled; simpl.
    now rewrite stopTimer_intervalId.
  - destruct (skipSession_spec e) as (Hst & Hint & _).
    unfold scheduled. rewrite Hint, Hst. reflexivity.
  - unfold resetAll, scheduled; simpl.
    rewrite stopTimer_intervalId, stopTimer_storage, stopTimer_clock.
    now rewrite loadState_cleared.
  - unfold fire. destruct (intervalId e) eqn:E; [| exact H].
    now apply tick_scheduled.
  - exact H.
Qed.

Lemma constructor_scheduled (ls : LocalStorage) (now : Z) :
  scheduled (constructor ls now) = true.
Proof.
  unfold constructor; simpl.
  destruct (isRunning (TimerStorage.loadState ls now)) eqn:E;
    unfold scheduled; simpl; now rewrite E.
Qed.

(** X7.  From its construction on, whatever is called on the engine and
    whenever the interval fires, the interval is scheduled exactly when
    the state is running: no tick can arrive while paused and no running
    countdown is left without its tick.  ([resetAll] relies on
    [removeItem] not throwing.) *)
Theorem interval_scheduled_iff_running (ls : LocalStorage) (now : Z)
  (cs : list Command) :
  removeItemThrows ls = false ->
  let e := run_all cs (constructor ls now) in
  scheduled e = true
  /\ (intervalId e <> None <-> isRunning (state e) = true).
Proof.
  intros Hrem e.
  assert (H : scheduled e = true).
  { unfold e.
    assert (G : forall cs0 e0, removeItemThrows (storage e0) = false ->
              scheduled e0 = true -> scheduled (run_all cs0 e0) = true).
    { induction cs0 as [| c cs0 IH]; intros e0 Hr Hs; simpl; [exact Hs |].
      apply IH.
      - destruct (run_flags c e0) as (_ & _ & Hf). now rewrite Hf.
      - now apply run_scheduled. }
    apply G; [| apply constructor_scheduled].
    unfold constructor; simpl.
    destruct (isRunning _); exact Hrem. }
  split; [exact H |].
  unfold scheduled in H.
  destruct (intervalId e), (isRunning (state e)); simpl in H;
    try discriminate; split; intros; congruence.
Qed.

Lemma interval_scheduled_iff_running_witness :
  scheduled
    (run_all [Start; Advance 1000; Fire; SkipSession; Toggle; ResetAll]
       (constructor fresh_storage 1700000000000)) = true.
Proof.
  refine (proj1 (interval_scheduled_iff_running fresh_storage 1700000000000
                   [Start; Advance 1000; Fire; SkipSession; Toggle; ResetAll]
                   _)).
  reflexivity.
Defined.

Lemma well_formed_inv (s : TimerState) :
  well_formed s = true ->
  exists r n w b cw cb,
    s = {| mode := mode s; remainingMs := Num r; preset := preset s;
           isRunning := isRunning s; completedSessions := Num n;
           lastTickAt := lastTickAt s; workDuration := Num w;
           breakDuration := Num b; customWorkDuration := Num cw;
           customBreakDuration := Num cb |}
    /\ 0 < r /\ r <= phaseTotalMs (mode s) w b /\ 0 <= n
    /\ 0 < w /\ 0 < b /\ 0 < cw /\ 0 < cb.
Proof.
  destruct s as [m r p i c l w b cw cb]. unfold well_formed; simpl.
  destruct r as [ | | | r]; try discriminate.
  destruct c as [ | | | n]; try discriminate.
  destruct w as [ | | | w]; try discriminate.
  destruct b as [ | | | b]; try discriminate.
  destruct cw as [ | | | cw]; try discriminate.
  destruct cb as [ | | | cb]; try discriminate.
  rewrite !andb_true_iff, !Z.ltb_lt, !Z.leb_le. intros H.
  exists r, n, w, b, cw, cb. intuition.
Qed.

Lemma well_formed_intro (m : Mode) (p : string) (i : bool) (l : jsval)
  (r n w b cw cb : Z) :
  0 < r -> r <= phaseTotalMs m w b -> 0 <= n ->
  0 < w -> 0 < b -> 0 < cw -> 0 < cb ->
  well_formed
    {| mode := m; remainingMs := Num r; preset := p; isRunning := i;
       completedSessions := Num n; lastTickAt := l; workDuration := Num w;
       breakDuration := Num b; customWorkDuration := Num cw;
       customBreakDuration := Num cb |} = true.
Proof.
  intros. unfold well_formed; simpl.
  rewrite !andb_true_iff, !Z.ltb_lt, !Z.leb_le. intuition.
Qed.

Lemma not_inherited (presetName : string) :
  existsb (String.eqb presetName) Object_prototype = false ->
  ~ In presetName Object_prototype.
Proof.
  intros H Hin.
  assert (E : existsb (String.eqb presetName) Object_prototype = true).
  { apply existsb_exists. exists presetName. split; [exact Hin |].
    apply String.eqb_refl. }
  congruence.
Qed.

Lemma js_or_minutes (v : jsval) (d : Z) :
  minutes_or_absent v = true -> 0 < d ->
  exists z, js_or v (Num d) = Num z /\ 0 < z.
Proof.
  intros Hv Hd. destruct v as [ | | | z]; simpl in *;
    try (exists d; split; [reflexivity | exact Hd]).
  unfold js_or; simpl. destruct (Z.eqb_spec z 0); simpl.
  - exists d. split; [reflexivity | exact Hd].
  - exists z. split; [reflexivity |]. apply Z.leb_le in Hv. lia.
Qed.

(** The state built for a preset name that is not inherited, from
    overrides that are minute counts or absent. *)
Lemma initializeWithPreset_shape (presetName : string)
  (cd : CustomDurations.t) :
  existsb (String.eqb presetName) Object_prototype = false ->
  minutes_or_absent (CustomDurations.workDuration cd) = true ->
  minutes_or_absent (CustomDurations.breakDuration cd) = true ->
  exists w b cw cb,
    0 < w /\ 0 < b /\ 0 < cw /\ 0 < cb
    /\ TimerStorage.initializeWithPreset presetName cd =
       {| mode := work; remainingMs := Num (w * 60000);
          preset := presetName; isRunning := false;
          completedSessions := Num 0; lastTickAt := Null;
          workDuration := Num w; breakDuration := Num b;
          customWorkDuration := Num cw; customBreakDuration := Num cb |}.
Proof.
  intros Hproto Hw Hb.
  destruct (js_or_minutes _ 25 Hw ltac:(lia)) as (cw & Hcw & Hcwpos).
  destruct (js_or_minutes _ 5 Hb ltac:(lia)) as (cb & Hcb & Hcbpos).
  destruct (String.eqb_spec presetName "custom") as [-> | Hc].
  - exists cw, cb, cw, cb. repeat split; try assumption.
    unfold TimerStorage.initializeWithPreset; simpl.
    rewrite Hcw, Hcb. rewrite mul_minutes. reflexivity.
  - destruct (String.eqb_spec presetName "pomodoro") as [-> | Hp].
    { exists 25, 5, cw, cb. repeat split; try assumption; try lia.
      unfold TimerStorage.initializeWithPreset; simpl.
      rewrite Hcw, Hcb. reflexivity. }
    destruct (String.eqb_spec presetName "deepwork") as [-> | Hd].
    { exists 50, 10, cw, cb. repeat split; try assumption; try lia.
      unfold TimerStorage.initializeWithPreset; simpl.
      rewrite Hcw, Hcb. reflexivity. }
    exists 25, 5, cw, cb. repeat split; try assumption; try lia.
    unfold TimerStorage.initializeWithPreset.
    rewrite (get_property_unknown _ Hp Hd Hc (not_inherited _ Hproto)).
    apply String.eqb_neq in Hc. rewrite Hc. simpl.
    change (js_or (CustomDurations.workDuration cd) (Num 25)) with
      (js_or (CustomDurations.workDuration cd) (Num 25)).
    unfold TimerStorage.defaultState; simpl. rewrite Hcw, Hcb. reflexivity.
Qed.

Lemma transitionToNext_well_formed (s : TimerState) :
  well_formed s = true ->
  well_formed (TimerStorage.transitionToNext s) = true.
Proof.
  intros H. destruct (well_formed_inv s H)
    as (r & n & w & b & cw & cb & Hs & ? & ? & ? & ? & ? & ? & ?).
  rewrite Hs. unfold TimerStorage.transitionToNext; simpl.
  destruct (mode s); simpl; rewrite mul_minutes; unfold add, arith; simpl;
    apply well_formed_intro; simpl; lia.
Qed.

Lemma tick_well_formed (e : Engine) :
  well_formed (state e) = true -> well_formed (state (tick e)) = true.
Proof.
  intros H. destruct (isRunning (state e)) eqn:Hrun.
  - destruct (well_formed_inv _ H)
      as (r & n & w & b & cw & cb & Hs & ? & ? & ? & ? & ? & ? & ?).
    assert (Hr : remainingMs (state e) = Num r) by (rewrite Hs; reflexivity).
    destruct (Z_le_gt_dec r 1000).
    + rewrite (tick_expires e r Hrun Hr) by lia.
      now apply transitionToNext_well_formed.
    + rewrite (tick_counts_down e r Hrun Hr) by lia.
      rewrite Hs. unfold with_remainingMs; simpl.
      apply well_formed_intro; simpl; lia.
  - now rewrite (tick_not_running e Hrun).
Qed.

Lemma run_well_formed (c : Command) (e : Engine) :
  valid_command c = true ->
  (is_ResetAll c = true -> removeItemThrows (storage e) = false) ->
  well_formed (state e) = true ->
  well_formed (state (run c e)) = true.
Proof.
  intros Hv Hrem H.
  destruct (well_formed_inv _ H)
    as (r & n & w & b & cw & cb & Hs & ? & ? & ? & ? & ? & ? & ?).
  destruct c; cbn [run valid_command is_ResetAll] in *.
  - rewrite start_state.
    rewrite Hs; simpl. apply well_formed_intro; simpl; assumption.
  - rewrite pause_state.
    rewrite Hs; simpl. apply well_formed_intro; simpl; assumption.
  - rewrite toggle_state.
    rewrite Hs; simpl. apply well_formed_intro; simpl; assumption.
  - rewrite reset_state, Hs; simpl. destruct (mode (state e)); simpl in *;
      rewrite mul_minutes; apply well_formed_intro; simpl; lia.
  - apply andb_true_iff in Hv. destruct Hv as [Hv Hb].
    apply andb_true_iff in Hv. destruct Hv as [Hp Hw].
    apply negb_true_iff in Hp.
    destruct (initializeWithPreset_shape presetName customDurations Hp Hw Hb)
      as (w' & b' & cw' & cb' & ? & ? & ? & ? & Hinit).
    rewrite selectPreset_state, Hinit, Hs; simpl.
    apply well_formed_intro; simpl; lia.
  - apply andb_true_iff in Hv. destruct Hv as [Hw Hb].
    destruct (initializeWithPreset_shape "custom"
                (CustomDurations.mk workMinutes breakMinutes)
                eq_refl Hw Hb)
      as (w' & b' & cw' & cb' & ? & ? & ? & ? & Hinit).
    unfold setCustomDurations. rewrite selectPreset_state, Hinit, Hs; simpl.
    apply well_formed_intro; simpl; lia.
  - rewrite (proj1 (skipSession_spec e)).
    now apply transitionToNext_well_formed.
  - rewrite resetAll_state, loadState_cleared by (now apply Hrem).
    reflexivity.
  - unfold fire. destruct (intervalId e); [| exact H].
    now apply tick_well_formed.
  - exact H.
Qed.

Lemma run_all_app (cs : list Command) (c : Command) (e : Engine) :
  run_all (c :: cs) e = run_all cs (run c e).
Proof. reflexivity. Qed.

(** X8.  Starting from a well-formed state, every run of valid commands
    keeps the state well formed: the counters and durations stay
    integers, the durations stay positive, and [remainingMs] stays
    strictly above 0 and at most the length of the current phase.  In
    particular no reachable state shows a countdown of 0, the end of a
    phase being resolved within the tick that reaches it.  ([resetAll]
    relies on [removeItem] not throwing.) *)
Theorem runs_keep_the_state_well_formed (cs : list Command) (e : Engine) :
  well_formed (state e) = true ->
  forallb valid_command cs = true ->
  (existsb is_ResetAll cs = true -> removeItemThrows (storage e) = false) ->
  let s := state (run_all cs e) in
  well_formed s = true
  /\ exists r w b,
       remainingMs s = Num r /\ workDuration s = Num w
       /\ breakDuration s = Num b
       /\ 0 < r <= phaseTotalMs (mode s) w b.
Proof.
  intros Hwf Hv Hrem s.
  assert (H : well_formed s = true).
  { unfold s. clear s. revert e Hwf Hrem.
    induction cs as [| c cs IH]; intros e Hwf Hrem; [exact Hwf |].
    simpl in Hv. apply andb_true_iff in Hv. destruct Hv as [Hc Hcs].
    rewrite run_all_app. apply IH; [exact Hcs | |].
    - apply run_well_formed; [exact Hc | | exact Hwf].
      intros Hr. apply Hrem. simpl. now rewrite Hr.
    - intros Hr. destruct (run_flags c e) as (_ & _ & Hf). rewrite Hf.
      apply Hrem. simpl. rewrite Hr. apply orb_true_r. }
  split; [exact H |].
  destruct (well_formed_inv s H)
    as (r & n & w & b & cw & cb & Hs & ? & ? & _).
  exists r, w, b. rewrite Hs; simpl. repeat split; assumption.
Qed.

Lemma runs_keep_the_state_well_formed_witness :
  well_formed
    (state
       (run_all
          [Start; Advance 1000; Fire; SetCustomDurations (Num 40) (Num 0);
           Start; SkipSession; Reset; ResetAll]
          (constructor fresh_storage 1700000000000))) = true.
Proof.
  refine (proj1 (runs_keep_the_state_well_formed
                   [Start; Advance 1000; Fire;
                    SetCustomDurations (Num 40) (Num 0);
                    Start; SkipSession; Reset; ResetAll]
                   (constructor fresh_storage 1700000000000) _ _ _));
    reflexivity.
Defined.

Lemma sessions_Num (s : TimerState) (n : Z) :
  completedSessions s = Num n -> sessions s = n.
Proof. unfold sessions. now intros ->. Qed.

Lemma transitionToNext_sessions (s : TimerState) :
  well_formed s = true ->
  sessions s <= sessions (TimerStorage.transitionToNext s) <= sessions s + 1.
Proof.
  intros H. destruct (well_formed_inv s H)
    as (r & n & w & b & cw & cb & Hs & _).
  rewrite Hs. unfold TimerStorage.transitionToNext, sessions; simpl.
  destruct (mode s); simpl; lia.
Qed.

Lemma tick_sessions (e : Engine) :
  well_formed (state e) = true ->
  sessions (state e) <= sessions (state (tick e)) <= sessions (state e) + 1.
Proof.
  intros H. destruct (isRunning (state e)) eqn:Hrun.
  - destruct (well_formed_inv _ H)
      as (r & n & w & b & cw & cb & Hs & _).
    assert (Hr : remainingMs (state e) = Num r) by (rewrite Hs; reflexivity).
    destruct (Z_le_gt_dec r 1000).
    + rewrite (tick_expires e r Hrun Hr) by lia.
      now apply transitionToNext_sessions.
    + rewrite (tick_counts_down e r Hrun Hr) by lia.
      unfold sessions, with_remainingMs; simpl. lia.
  - rewrite (tick_not_running e Hrun). lia.
Qed.

Lemma run_sessions (c : Command) (e : Engine) :
  well_formed (state e) = true ->
  is_ResetAll c = false ->
  sessions (state e) <= sessions (state (run c e))
  <= sessions (state e) + (if may_complete c then 1 else 0).
Proof.
  intros H Hr.
  destruct c; cbn [run may_complete is_ResetAll] in *; try discriminate.
  - rewrite start_state. unfold sessions; simpl. lia.
  - rewrite pause_state. unfold sessions; simpl. lia.
  - rewrite toggle_state. unfold sessions; simpl. lia.
  - rewrite reset_state. unfold sessions; simpl. lia.
  - rewrite selectPreset_state. unfold sessions; simpl. lia.
  - unfold setCustomDurations. rewrite selectPreset_state.
    unfold sessions; simpl. lia.
  - rewrite (proj1 (skipSession_spec e)).
    now apply transitionToNext_sessions.
  - unfold fire. destruct (intervalId e); [now apply tick_sessions | lia].
  - simpl. lia.
Qed.

(** X9.  Along a run of valid commands without [resetAll], starting from
    a well-formed state, the session count never goes down, and it goes
    up by at most one for each skip and each firing of the interval:
    nothing else counts a session. *)
Theorem sessions_only_grow (cs : list Command) (e : Engine) :
  well_formed (state e) = true ->
  forallb valid_command cs = true ->
  existsb is_ResetAll cs = false ->
  sessions (state e) <= sessions (state (run_all cs e))
  <= sessions (state e) + Z.of_nat (length (filter may_complete cs)).
Proof.
  revert e. induction cs as [| c cs IH]; intros e Hwf Hv Hr.
  - simpl. lia.
  - simpl in Hv, Hr. apply andb_true_iff in Hv. destruct Hv as [Hc Hcs].
    apply orb_false_iff in Hr. destruct Hr as [Hrc Hrcs].
    rewrite run_all_app.
    assert (Hwf' : well_formed (state (run c e)) = true).
    { apply run_well_formed; [exact Hc | | exact Hwf]. congruence. }
    pose proof (IH (run c e) Hwf' Hcs Hrcs) as [IH1 IH2].
    pose proof (run_sessions c e Hwf Hrc) as [H1 H2].
    simpl. destruct (may_complete c); simpl length; lia.
Qed.

Lemma sessions_only_grow_witness :
  0 <= sessions
         (state
            (run_all [Start; SkipSession; Reset; SkipSession; Fire]
               (constructor fresh_storage 1700000000000)))
  <= 3.
Proof.
  exact (sessions_only_grow [Start; SkipSession; Reset; SkipSession; Fire]
           (constructor fresh_storage 1700000000000)
           eq_refl eq_refl eq_refl).
Defined.

(** ** Saving, reloading and the passing of time *)

(** What [loadState] makes, [elapsed] ms later, of the record that
    [saveState] wrote for a well-formed state at time [t]. *)
Lemma load_saved_record (ls : LocalStorage) (s : TimerState) (t now r : Z) :
  getItemThrows ls = false ->
  item ls =
    Some (JSON_stringify
            (with_lastTickAt (if isRunning s then Num t else Null) s)) ->
  well_formed s = true ->
  remainingMs s = Num r ->
  (isRunning s = true -> t <> 0) ->
  TimerStorage.loadState ls now =
  if isRunning s
  then if now - t <? r
       then with_lastTickAt (Num t) (with_remainingMs (Num (r - (now - t))) s)
       else with_lastTickAt (Num t) (TimerStorage.transitionToNext s)
  else with_lastTickAt Null s.
Proof.
  intros Hget Hitem Hwf Hr Ht.
  destruct (well_formed_inv s Hwf)
    as (r' & n & w & b & cw & cb & Hs & Hpos & _).
  assert (r' = r) by (rewrite Hs in Hr; simpl in Hr; congruence). subst r'.
  unfold TimerStorage.loadState. rewrite Hget, Hitem.
  rewrite Hs. cbn -[Z.sub Z.mul Z.ltb Z.max Z.eqb].
  destruct (isRunning s) eqn:Hrun.
  - cbn -[Z.sub Z.mul Z.ltb Z.max Z.eqb].
    destruct (Z.eqb_spec t 0) as [E | _]; [now elim (Ht eq_refl) |].
    cbn -[Z.sub Z.mul Z.ltb Z.max Z.eqb].
    unfold TimerStorage.reconcile.
    cbn -[Z.sub Z.mul Z.ltb Z.max Z.eqb].
    destruct (Z.ltb_spec (now - t) r).
    + rewrite Z.max_r by lia.
      destruct (Z.eqb_spec (r - (now - t)) 0); [lia |]. reflexivity.
    + rewrite Z.max_l by lia. cbn -[Z.sub Z.mul Z.ltb Z.max Z.eqb].
      unfold TimerStorage.transitionToNext.
      destruct (mode s); reflexivity.
  - reflexivity.
Qed.

Lemma saveState_item (s : TimerState) (now : Z) (ls : LocalStorage) :
  setItemThrows ls = false ->
  item (TimerStorage.saveState s now ls) =
  Some (JSON_stringify
          (with_lastTickAt (if isRunning s then Num now else Null) s)).
Proof.
  intros H. unfold TimerStorage.saveState. rewrite H. reflexivity.
Qed.

(** X10.  The round trip of a running state.  [saveState] at time [t]
    followed by [loadState] [elapsed] ms later (the storage working)
    returns the state with [elapsed] taken off [remainingMs], still
    running, when less than [remainingMs] has passed; otherwise it
    returns the transition of the saved state, stopped: one transition
    only, however long the page was away.  [lastTickAt] is the time of
    the save in both cases, and when the clock has not stepped back the
    loaded state is well formed again. *)
Theorem save_load_running (s : TimerState) (ls : LocalStorage)
  (t elapsed r : Z) :
  well_formed s = true ->
  isRunning s = true ->
  remainingMs s = Num r ->
  t <> 0 ->
  setItemThrows ls = false ->
  getItemThrows ls = false ->
  let loaded :=
    TimerStorage.loadState (TimerStorage.saveState s t ls) (t + elapsed) in
  (elapsed < r ->
   loaded = with_lastTickAt (Num t) (with_remainingMs (Num (r - elapsed)) s)
   /\ isRunning loaded = true)
  /\ (r <= elapsed ->
      loaded = with_lastTickAt (Num t) (TimerStorage.transitionToNext s)
      /\ isRunning loaded = false)
  /\ (0 <= elapsed -> well_formed loaded = true).
Proof.
  intros Hwf Hrun Hr Ht Hset Hget loaded.
  assert (Hload : loaded =
    if elapsed <? r
    then with_lastTickAt (Num t) (with_remainingMs (Num (r - elapsed)) s)
    else with_lastTickAt (Num t) (TimerStorage.transitionToNext s)).
  { unfold loaded.
    rewrite (load_saved_record _ s t (t + elapsed) r); rewrite ?Hrun.
    - replace (t + elapsed - t) with elapsed by lia. reflexivity.
    - destruct (saveState_flags s t ls) as (Hf & _). now rewrite Hf.
    - now rewrite saveState_item, Hrun.
    - exact Hwf.
    - exact Hr.
    - intros _. exact Ht. }
  destruct (well_formed_inv s Hwf)
    as (r' & n & w & b & cw & cb & Hs & Hpos & Hle & ? & ? & ? & ? & ?).
  assert (r' = r) by (rewrite Hs in Hr; simpl in Hr; congruence). subst r'.
  split; [| split].
  - intros Hlt. destruct (Z.ltb_spec elapsed r); [| lia].
    rewrite Hload. split; [reflexivity |]. simpl. exact Hrun.
  - intros Hge. destruct (Z.ltb_spec elapsed r); [lia |].
    rewrite Hload. split; reflexivity.
  - intros Hnonneg. rewrite Hload. destruct (Z.ltb_spec elapsed r).
    + rewrite Hs. unfold with_lastTickAt, with_remainingMs; simpl.
      apply well_formed_intro; simpl; lia.
    + pose proof (transitionToNext_well_formed s Hwf) as Ht'.
      destruct (well_formed_inv _ Ht')
        as (r2 & n2 & w2 & b2 & cw2 & cb2 & Hs2 & ? & ? & ? & ? & ? & ? & ?).
      rewrite Hs2. unfold with_lastTickAt; simpl.
      apply well_formed_intro; simpl; assumption.
Qed.

Lemma save_load_running_witness :
  remainingMs
    (TimerStorage.loadState
       (TimerStorage.saveState running_with_ten_minutes_left 1700000000000
          fresh_storage)
       (1700000000000 + 90000))
  = Num 510000.
Proof.
  destruct (save_load_running running_with_ten_minutes_left fresh_storage
              1700000000000 90000 600000)
    as (Hlt & _);
    [reflexivity | reflexivity | reflexivity | lia | reflexivity
    | reflexivity |].
  destruct Hlt as (Hl & _); [lia |].
  rewrite Hl. reflexivity.
Defined.

Lemma tick_counts_down_frame (e : Engine) (r : Z) :
  isRunning (state e) = true ->
  remainingMs (state e) = Num r ->
  1000 < r ->
  intervalId (tick e) = intervalId e
  /\ clock (tick e) = clock e
  /\ storage (tick e) =
     TimerStorage.saveState (state (tick e)) (clock e) (storage e)
  /\ exists ev,
       emitted (tick e) =
       (emitted e ++ [onStateChange (keys_of (state e)) (state (tick e)); ev])%list
       /\ is_onStateChange ev = false.
Proof.
  intros Hrun Hrem Hr. unfold tick. rewrite Hrun, Hrem.
  unfold sub, arith, Math_max0; simpl. rewrite Z.max_r by lia.
  destruct (Z.eqb_spec (r - 1000) 0); [lia |]. simpl.
  repeat split. eexists. rewrite <- app_assoc. split; reflexivity.
Qed.

(** Every command that emits anything has saved the state it leaves,
    [resetAll] apart, which has cleared the storage and loaded from it. *)
Lemma run_saved (c : Command) (e : Engine) :
  is_Advance c = false ->
  emitted (run c e) <> emitted e ->
  clock (run c e) = clock e
  /\ (c = ResetAll
      \/ storage (run c e) =
         TimerStorage.saveState (state (run c e)) (clock e) (storage e)).
Proof.
  intros Hadv Hem. destruct c; cbn [run is_Advance] in *; try discriminate.
  - unfold start in *. destruct (isRunning (state e)); [congruence |].
    split; [reflexivity | right; reflexivity].
  - unfold pause in *. destruct (negb (isRunning (state e))); [congruence |].
    rewrite updateState_spec; simpl.
    rewrite stopTimer_state, stopTimer_clock, stopTimer_storage.
    split; [reflexivity | right; reflexivity].
  - unfold toggle in *. destruct (isRunning (state e)) eqn:E.
    + unfold pause in *. rewrite E in *; simpl in *.
      rewrite stopTimer_state, stopTimer_clock, stopTimer_storage.
      split; [reflexivity | right; reflexivity].
    + unfold start in *. rewrite E in *.
      split; [reflexivity | right; reflexivity].
  - unfold reset. rewrite updateState_spec; simpl.
    rewrite stopTimer_state, stopTimer_clock, stopTimer_storage.
    split; [reflexivity | right; reflexivity].
  - unfold selectPreset; simpl.
    rewrite stopTimer_state, stopTimer_clock, stopTimer_storage.
    split; [reflexivity | right; reflexivity].
  - unfold setCustomDurations, selectPreset; simpl.
    rewrite stopTimer_state, stopTimer_clock, stopTimer_storage.
    split; [reflexivity | right; reflexivity].
  - unfold skipSession. simpl.
    rewrite stopTimer_state, stopTimer_clock, stopTimer_storage,
      spread_keys_of.
    split; [reflexivity | right; reflexivity].
  - split; [| left; reflexivity].
    unfold resetAll; simpl. apply stopTimer_clock.
  - unfold fire in *. destruct (intervalId e); [| congruence].
    unfold tick in *. destruct (isRunning (state e)) eqn:Hrun; simpl in *.
    + destruct (is_zero _).
      * destruct (handleTimerComplete_spec e) as (Hst & _ & Hsto & _).
        rewrite Hsto, Hst. split; [| right; reflexivity].
        unfold handleTimerComplete; simpl. apply stopTimer_clock.
      * split; [reflexivity | right; reflexivity].
    + rewrite stopTimer_emitted in Hem. congruence.
Qed.

Lemma same_timer_isRunning (a b : TimerState) :
  same_timer a b -> isRunning a = isRunning b.
Proof.
  unfold same_timer, with_lastTickAt. destruct a, b; simpl.
  intros H. now inversion H.
Qed.

Lemma same_timer_lastTickAt (v : jsval) (s : TimerState) :
  same_timer (with_lastTickAt v s) s.
Proof. unfold same_timer. destruct s; reflexivity. Qed.

Lemma constructor_state (ls : LocalStorage) (now : Z) :
  state (constructor ls now) = TimerStorage.loadState ls now.
Proof. unfold constructor; simpl. destruct (isRunning _); reflexivity. Qed.

(** X11.  Every operation that emits anything leaves the storage in step
    with the memory: an engine constructed from the storage at that
    instant (a page reload) holds the same timer, [lastTickAt] apart,
    and its interval is scheduled exactly when the timer was running.
    The storage is taken to work and the state left by the operation to
    be well formed. *)
Theorem operations_survive_a_reload (c : Command) (e : Engine) :
  is_Advance c = false ->
  emitted (run c e) <> emitted e ->
  getItemThrows (storage e) = false ->
  setItemThrows (storage e) = false ->
  clock e <> 0 ->
  well_formed (state (run c e)) = true ->
  let e' := run c e in
  same_timer (state (reload e')) (state e')
  /\ (intervalId (reload e') <> None <-> isRunning (state e') = true).
Proof.
  intros Hadv Hem Hget Hset Hclock Hwf e'.
  assert (Hsame : same_timer (state (reload e')) (state e')).
  { unfold reload. rewrite constructor_state.
    destruct (run_saved c e Hadv Hem) as (Hck & [-> | Hsto]).
    - unfold e'. cbn [run]. rewrite resetAll_state.
      unfold resetAll; simpl. rewrite stopTimer_storage, stopTimer_clock.
      reflexivity.
    - fold e' in Hck, Hsto, Hwf. rewrite Hck, Hsto.
      destruct (well_formed_inv _ Hwf)
        as (r & n & w & b & cw & cb & Hs & Hpos & _).
      assert (Hr : remainingMs (state e') = Num r)
        by (rewrite Hs; reflexivity).
      rewrite (load_saved_record _ (state e') (clock e) (clock e) r).
      + rewrite Z.sub_diag.
        destruct (isRunning (state e')).
        * destruct (Z.ltb_spec 0 r); [| lia].
          rewrite Z.sub_0_r. unfold same_timer.
          rewrite Hs. reflexivity.
        * apply same_timer_lastTickAt.
      + destruct (saveState_flags (state e') (clock e) (storage e)) as (Hf & _).
        now rewrite Hf.
      + now apply saveState_item.
      + exact Hwf.
      + exact Hr.
      + intros _. exact Hclock. }
  split; [exact Hsame |].
  pose proof (constructor_scheduled (storage e') (clock e')) as Hsch.
  pose proof (same_timer_isRunning _ _ Hsame) as Hrun.
  unfold reload in *. unfold scheduled in Hsch.
  destruct (intervalId (constructor (storage e') (clock e'))),
    (isRunning (state (constructor (storage e') (clock e')))),
    (isRunning (state e')); simpl in *; try discriminate;
    split; intros; congruence.
Qed.

Lemma operations_survive_a_reload_witness :
  same_timer
    (state (reload (run Start (constructor fresh_storage 1700000000000))))
    (state (run Start (constructor fresh_storage 1700000000000))).
Proof.
  refine (proj1 (operations_survive_a_reload Start
                   (constructor fresh_storage 1700000000000) _ _ _ _ _ _));
    try reflexivity; try discriminate.
Defined.

Lemma with_remainingMs_twice (a b : jsval) (s : TimerState) :
  with_remainingMs a (with_remainingMs b s) = with_remainingMs a s.
Proof. destruct s; reflexivity. Qed.

Lemma ticking_state (e : Engine) (k : nat) (r : Z) :
  isRunning (state e) = true ->
  intervalId e <> None ->
  remainingMs (state e) = Num r ->
  1000 * Z.of_nat k < r ->
  state (Nat.iter k second e)
    = with_remainingMs (Num (r - 1000 * Z.of_nat k)) (state e)
  /\ intervalId (Nat.iter k second e) = intervalId e
  /\ clock (Nat.iter k second e) = clock e + 1000 * Z.of_nat k.
Proof.
  intros Hrun Hint Hrem. induction k as [| k IH]; intros Hk.
  - simpl. rewrite Z.sub_0_r, Z.add_0_r. repeat split.
    destruct (state e); simpl in *. now subst.
  - destruct IH as (Hst & Hi & Hc); [lia |].
    change (Nat.iter (S k) second e) with (second (Nat.iter k second e)).
    set (ek := Nat.iter k second e) in *.
    unfold second, fire. cbn [advance intervalId].
    rewrite Hi. destruct (intervalId e) as [h |] eqn:Eh; [| congruence].
    assert (Hrun' : isRunning (state (advance 1000 ek)) = true).
    { cbn [advance state]. rewrite Hst. simpl. exact Hrun. }
    assert (Hrem' : remainingMs (state (advance 1000 ek))
                    = Num (r - 1000 * Z.of_nat k)).
    { cbn [advance state]. rewrite Hst. reflexivity. }
    assert (Hlt : 1000 < r - 1000 * Z.of_nat k) by lia.
    rewrite (tick_counts_down _ _ Hrun' Hrem' Hlt).
    destruct (tick_counts_down_frame _ _ Hrun' Hrem' Hlt) as (Hi' & Hc' & _).
    rewrite Hi', Hc'. cbn [advance state intervalId clock].
    rewrite Hst, with_remainingMs_twice, Hi, Hc.
    repeat split; try (f_equal; f_equal; lia); lia.
Qed.

(** X12.  Ticking and reloading agree.  Let a running engine have just
    saved its state, with [r] ms left.  After [k] seconds, each followed
    by a firing of the interval, and as long as the phase has not run
    out, [remainingMs] is [r - 1000 k] and nothing else has changed; and
    had the page been closed after the save and loaded again [k]
    seconds later, [loadState] would give the same timer. *)
Theorem ticking_agrees_with_reloading (e : Engine) (k : nat) (r : Z) :
  well_formed (state e) = true ->
  isRunning (state e) = true ->
  intervalId e <> None ->
  remainingMs (state e) = Num r ->
  1000 * Z.of_nat k < r ->
  clock e <> 0 ->
  getItemThrows (storage e) = false ->
  item (storage e) =
    Some (JSON_stringify (with_lastTickAt (Num (clock e)) (state e))) ->
  let ticked := Nat.iter k second e in
  state ticked = with_remainingMs (Num (r - 1000 * Z.of_nat k)) (state e)
  /\ clock ticked = clock e + 1000 * Z.of_nat k
  /\ same_timer (TimerStorage.loadState (storage e) (clock ticked))
                (state ticked).
Proof.
  intros Hwf Hrun Hint Hrem Hk Hclock Hget Hitem ticked.
  destruct (ticking_state e k r Hrun Hint Hrem Hk) as (Hst & _ & Hc).
  fold ticked in Hst, Hc.
  split; [exact Hst | split; [exact Hc |]].
  rewrite Hc, Hst.
  rewrite (load_saved_record _ (state e) (clock e) _ r Hget); rewrite ?Hrun;
    try assumption; [| intros _; exact Hclock].
  replace (clock e + 1000 * Z.of_nat k - clock e) with (1000 * Z.of_nat k)
    by lia.
  destruct (Z.ltb_spec (1000 * Z.of_nat k) r); [| lia].
  apply same_timer_lastTickAt.
Qed.

Lemma ticking_agrees_with_reloading_witness :
  state (Nat.iter 3 second (start (constructor fresh_storage 1700000000000)))
  = with_remainingMs (Num 1497000)
      (state (start (constructor fresh_storage 1700000000000))).
Proof.
  refine (proj1 (ticking_agrees_with_reloading
                   (start (constructor fresh_storage 1700000000000)) 3 1500000
                   _ _ _ _ _ _ _ _));
    try reflexivity; discriminate.
Defined.

(** ** What subscribers are told *)

(** X13.  What an operation announces.  Nothing is emitted and the
    state is unchanged by [start] on a running engine, by [pause] on a
    paused one, by a firing of the interval that finds no interval or a
    paused state, and by the passing of time.  In every other case the
    first event emitted is a state change carrying the state the
    operation leaves behind; its [prevState] is the state before the
    operation, except after [selectPreset], [setCustomDurations] and
    [resetAll], which announce [{}]; and no second state change follows
    in the same operation. *)
Theorem state_changes_are_announced (c : Command) (e : Engine) :
  let e' := run c e in
  let quiet :=
    match c with
    | Start => isRunning (state e)
    | Pause => negb (isRunning (state e))
    | Fire =>
        match intervalId e with
        | Some _ => negb (isRunning (state e))
        | None => true
        end
    | Advance _ => true
    | _ => false
    end in
  let prevState :=
    match c with
    | SelectPreset _ _ | SetCustomDurations _ _ | ResetAll => Partial.empty
    | _ => keys_of (state e)
    end in
  if quiet
  then emitted e' = emitted e /\ state e' = state e
  else exists rest,
         emitted e' =
         (emitted e ++ onStateChange prevState (state e') :: rest)%list
         /\ existsb is_onStateChange rest = false.
Proof.
  assert (Hstart : forall e0, isRunning (state e0) = false ->
    exists rest,
      emitted (start e0) =
        (emitted e0
         ++ onStateChange (keys_of (state e0)) (state (start e0)) :: rest)%list
      /\ existsb is_onStateChange rest = false).
  { intros e0 H. unfold start. rewrite H. simpl.
    exists []. split; reflexivity. }
  assert (Hpause : forall e0, isRunning (state e0) = true ->
    exists rest,
      emitted (pause e0) =
        (emitted e0
         ++ onStateChange (keys_of (state e0)) (state (pause e0)) :: rest)%list
      /\ existsb is_onStateChange rest = false).
  { intros e0 H. unfold pause. rewrite H. simpl.
    rewrite stopTimer_state, stopTimer_emitted.
    exists []. split; reflexivity. }
  destruct c; cbn [run]; cbv zeta.
  - destruct (isRunning (state e)) eqn:E.
    + unfold start. rewrite E. split; reflexivity.
    + now apply Hstart.
  - destruct (isRunning (state e)) eqn:E; cbn [negb].
    + now apply Hpause.
    + unfold pause. rewrite E. split; reflexivity.
  - unfold toggle. destruct (isRunning (state e)) eqn:E.
    + now apply Hpause.
    + now apply Hstart.
  - unfold reset. rewrite updateState_spec; simpl.
    rewrite stopTimer_state, stopTimer_emitted.
    exists []. split; reflexivity.
  - unfold selectPreset; simpl. rewrite stopTimer_emitted.
    exists []. split; reflexivity.
  - unfold setCustomDurations, selectPreset; simpl.
    rewrite stopTimer_emitted.
    exists []. split; reflexivity.
  - destruct (skipSession_spec e) as (Hst & _ & Hem).
    rewrite Hem, Hst. eexists [_]. split; reflexivity.
  - unfold resetAll; simpl. rewrite stopTimer_emitted.
    exists []. split; reflexivity.
  - unfold fire. destruct (intervalId e); [| split; reflexivity].
    unfold tick. destruct (isRunning (state e)) eqn:Hrun; cbn [negb].
    + destruct (is_zero _).
      * destruct (handleTimerComplete_spec e) as (Hst & _ & _ & Hem).
        rewrite Hem, Hst. eexists [_; _]. split; reflexivity.
      * rewrite updateState_spec. unfold emit; simpl.
        rewrite <- app_assoc. simpl.
        eexists [_]. split; reflexivity.
    + now rewrite stopTimer_emitted, stopTimer_state.
  - split; reflexivity.
Qed.

(** ** A countdown that holds no number *)

Lemma tick_without_a_number (e : Engine) :
  isRunning (state e) = true ->
  ToNumber (remainingMs (state e)) = None ->
  state (tick e) = with_remainingMs NaN (state e)
  /\ intervalId (tick e) = intervalId e.
Proof.
  intros Hrun Hnan. unfold tick. rewrite Hrun. simpl.
  unfold Math_max0, sub, arith. rewrite Hnan. simpl.
  split; reflexivity.
Qed.

(** X14.  A running countdown whose [remainingMs] is not a number (as
    after selecting a preset under a name inherited from the prototype)
    never ends: after any number of seconds the engine is still running
    in the same mode with the same session count, [remainingMs] is NaN
    and the time shown is [NaN:NaN]. *)
Theorem countdown_without_a_number_never_ends (e : Engine) (k : nat) :
  isRunning (state e) = true ->
  intervalId e <> None ->
  ToNumber (remainingMs (state e)) = None ->
  let e' := Nat.iter (S k) second e in
  state e' = with_remainingMs NaN (state e)
  /\ isRunning (state e') = true
  /\ intervalId e' <> None
  /\ getFormattedTime e' = "NaN:NaN".
Proof.
  intros Hrun Hint Hnan e'.
  assert (H : state e' = with_remainingMs NaN (state e)
              /\ intervalId e' = intervalId e).
  { unfold e'. clear e'. induction k as [| k IH].
    - change (Nat.iter 1 second e) with (second e).
      unfold second, fire. cbn [advance intervalId].
      destruct (intervalId e) eqn:Eh; [| congruence].
      destruct (tick_without_a_number (advance 1000 e) Hrun Hnan)
        as (Hst & Hi).
      rewrite Hst, Hi. cbn [advance state intervalId].
      rewrite Eh. split; reflexivity.
    - change (Nat.iter (S (S k)) second e)
        with (second (Nat.iter (S k) second e)).
      destruct IH as (Hst & Hi). set (ek := Nat.iter (S k) second e) in *.
      unfold second, fire. cbn [advance intervalId]. rewrite Hi.
      destruct (intervalId e) eqn:Eh; [| congruence].
      assert (Hrun' : isRunning (state (advance 1000 ek)) = true).
      { cbn [advance state]. rewrite Hst. exact Hrun. }
      assert (Hnan' : ToNumber (remainingMs (state (advance 1000 ek))) = None).
      { cbn [advance state]. rewrite Hst. reflexivity. }
      destruct (tick_without_a_number (advance 1000 ek) Hrun' Hnan')
        as (Hst' & Hi').
      rewrite Hst', Hi'. cbn [advance state intervalId].
      split; [now rewrite Hst, with_remainingMs_twice | congruence]. }
  destruct H as (Hst & Hi).
  split; [exact Hst |]. split; [rewrite Hst; exact Hrun |].
  split; [rewrite Hi; exact Hint |].
  unfold getFormattedTime. rewrite Hst. reflexivity.
Qed.

Lemma countdown_without_a_number_never_ends_witness :
  getFormattedTime
    (Nat.iter 5 second
       (start (selectPreset "toString" CustomDurations.none
                 (constructor fresh_storage 1700000000000))))
  = "NaN:NaN".
Proof.
  refine (proj2 (proj2 (proj2 (countdown_without_a_number_never_ends
                   (start (selectPreset "toString" CustomDurations.none
                             (constructor fresh_storage 1700000000000)))
                   4 _ _ _))));
    try reflexivity; discriminate.
Defined.

(** ** The storage and the running engine *)

Lemma run_agree (c : Command) (e1 e2 : Engine) :
  agree e1 e2 ->
  removeItemThrows (storage e1) = false ->
  removeItemThrows (storage e2) = false ->
  agree (run c e1) (run c e2).
Proof.
  destruct e1 as [s1 i1 h1 ls1 c1 em1], e2 as [s2 i2 h2 ls2 c2 em2].
  unfold agree; simpl. intros (-> & -> & -> & -> & ->) H1 H2.
  destruct c; cbn [run].
  - unfold start; simpl. destruct (isRunning s2); simpl; repeat split.
  - unfold pause; simpl. destruct (isRunning s2); simpl;
      unfold stopTimer; simpl; destruct i2; simpl; repeat split.
  - unfold toggle, start, pause; simpl. destruct (isRunning s2); simpl;
      unfold stopTimer; simpl; destruct i2; simpl; repeat split.
  - unfold reset, stopTimer; simpl. destruct i2; simpl; repeat split.
  - unfold selectPreset, stopTimer; simpl. destruct i2; simpl; repeat split.
  - unfold setCustomDurations, selectPreset, stopTimer; simpl.
    destruct i2; simpl; repeat split.
  - unfold skipSession, stopTimer; simpl. destruct i2; simpl; repeat split.
  - unfold resetAll, stopTimer; simpl.
    destruct i2; simpl; rewrite !loadState_cleared by assumption;
      repeat split.
  - unfold fire; simpl. destruct i2; [| repeat split].
    unfold tick; simpl. destruct (isRunning s2); simpl.
    + destruct (is_zero _); simpl; repeat split.
    + repeat split.
  - repeat split.
Qed.

(** X15.  Once constructed, the engine does not depend on the storage:
    two engines that differ only in their storage (its content, or
    whether [getItem] and [setItem] throw) go through the same states,
    schedule the same intervals and emit the same events along every
    run.  A failing write is therefore never felt by the running timer;
    only a later reload can tell.  ([removeItem] is taken not to throw,
    [resetAll] being the one operation that reads the storage back.) *)
Theorem storage_never_affects_the_running_engine (cs : list Command)
  (e : Engine) (ls : LocalStorage) :
  removeItemThrows (storage e) = false ->
  removeItemThrows ls = false ->
  let e1 := run_all cs e in
  let e2 := run_all cs (set_storage ls e) in
  state e2 = state e1
  /\ intervalId e2 = intervalId e1
  /\ emitted e2 = emitted e1
  /\ clock e2 = clock e1.
Proof.
  intros H1 H2 e1 e2.
  assert (G : forall cs0 a b, agree a b ->
            removeItemThrows (storage a) = false ->
            removeItemThrows (storage b) = false ->
            agree (run_all cs0 a) (run_all cs0 b)).
  { induction cs0 as [| c cs0 IH]; intros a b Hab Ha Hb; [exact Hab |].
    rewrite !run_all_app. apply IH.
    - now apply run_agree.
    - destruct (run_flags c a) as (_ & _ & Hf). now rewrite Hf.
    - destruct (run_flags c b) as (_ & _ & Hf). now rewrite Hf. }
  assert (Hag : agree e1 e2).
  { unfold e1, e2. apply G; [| exact H1 | exact H2].
    unfold agree, set_storage; simpl. repeat split. }
  unfold agree in Hag. decompose [and] Hag. repeat split; congruence.
Qed.

Lemma storage_never_affects_the_running_engine_witness :
  state
    (run_all [Start; Advance 1000; Fire; SkipSession]
       (set_storage storage_that_rejects_writes
          (constructor fresh_storage 1700000000000)))
  = state
      (run_all [Start; Advance 1000; Fire; SkipSession]
         (constructor fresh_storage 1700000000000)).
Proof.
  refine (proj1 (storage_never_affects_the_running_engine
                   [Start; Advance 1000; Fire; SkipSession]
                   (constructor fresh_storage 1700000000000)
                   storage_that_rejects_writes _ _)); reflexivity.
Defined.

(** ** The time shown *)

Lemma to_uint_no_leading_zero (p : positive) (d : Decimal.uint) :
  Pos.to_uint p <> Decimal.D0 d.
Proof.
  intros E.
  assert (Hn : Decimal.unorm (Pos.to_uint p) = Pos.to_uint p).
  { rewrite <- DecimalPos.Unsigned.to_of, DecimalPos.Unsigned.of_to.
    reflexivity. }
  rewrite E in Hn. rewrite DecimalFacts.unorm_D0 in Hn.
  unfold Decimal.unorm in Hn.
  destruct (Decimal.nzhead d) eqn:Hd;
    try (apply (DecimalFacts.nzhead_nonzero d d); congruence).
  apply (DecimalPos.Unsigned.to_uint_nonzero p).
  rewrite E. congruence.
Qed.

(** A two-character field that reads [00] stands for the number 0. *)
Lemma padStart2_zero (z : Z) (rest : string) :
  padStart2 (toString (Some z)) = String "0"%char (String "0"%char rest) ->
  z = 0.
Proof.
  destruct z as [| p | p]; [reflexivity | |]; unfold toString; simpl.
  - pose proof (to_uint_no_leading_zero p) as Hz.
    pose proof (DecimalPos.Unsigned.to_uint_nonnil p) as Hnil.
    destruct (Pos.to_uint p) as [| d | d | d | d | d | d | d | d | d | d];
      try congruence; try (now elim (Hz d));
      unfold NilZero.string_of_uint; simpl;
      destruct (NilEmpty.string_of_uint d); simpl; discriminate.
  - unfold NilZero.string_of_uint.
    destruct (Pos.to_uint p); simpl;
      try discriminate;
      destruct (NilEmpty.string_of_uint u); simpl; discriminate.
Qed.

Lemma padStart2_shape (x : string) :
  exists a b r, padStart2 x = String a (String b r).
Proof.
  destruct x as [| a [| b r]]; simpl; do 3 eexists; reflexivity.
Qed.

Lemma formatTime_Num (ms : Z) :
  TimerStorage.formatTime (Num ms) =
  String.append
    (padStart2 (toString (Some (floor_div60 (ceil_div1000 ms)))))
    (String ":"%char
       (padStart2 (toString (Some (rem60 (ceil_div1000 ms)))))).
Proof. reflexivity. Qed.

(** X16.  [formatTime] shows [00:00] exactly when no whole second is
    left to show, that is for [ms] between -999 and 0; as long as any
    time remains ([ms > 0]) the text differs from [00:00], a last
    fraction of a second being shown as [00:01]. *)
Theorem formatTime_shows_zero_only_at_the_end (ms : Z) :
  (TimerStorage.formatTime (Num ms) = "00:00" <-> -1000 < ms <= 0)
  /\ (0 < ms -> TimerStorage.formatTime (Num ms) <> "00:00")
  /\ (0 < ms <= 1000 -> TimerStorage.formatTime (Num ms) = "00:01").
Proof.
  assert (Hiff : TimerStorage.formatTime (Num ms) = "00:00"
                 <-> -1000 < ms <= 0).
  { rewrite formatTime_Num. unfold ceil_div1000, floor_div60, rem60.
    remember (- (- ms / 1000)) as t eqn:Et.
    split.
    - intros H.
      destruct (padStart2_shape (toString (Some (t / 60)))) as (a & b & r & Hm).
      rewrite Hm in H. cbn [String.append] in H.
      injection H as Ha Hb Hrest. subst a b.
      assert (Hm0 : t / 60 = 0) by (eapply padStart2_zero; exact Hm).
      rewrite Hm0 in Hm. injection Hm as <-.
      cbn [String.append] in Hrest. injection Hrest as Hs.
      apply padStart2_zero in Hs.
      assert (Ht : t = 0).
      { assert (0 <= t < 60) by (apply Z.div_small_iff in Hm0; lia).
        rewrite Z.rem_small in Hs; lia. }
      assert (Hd : - ms / 1000 = 0) by lia.
      apply Z.div_small_iff in Hd; lia.
    - intros H.
      assert (Ht : t = 0).
      { subst t. rewrite Z.div_small by lia. reflexivity. }
      rewrite Ht. reflexivity. }
  split; [exact Hiff |]. split.
  - intros Hpos H. apply Hiff in H. lia.
  - intros H. rewrite formatTime_Num. unfold ceil_div1000.
    assert (E : - (- ms / 1000) = 1).
    { assert (- ms / 1000 = -1); [| lia].
      symmetry. apply (Z.div_unique_pos (- ms) 1000 (-1) (1000 - ms)); lia. }
    rewrite E. reflexivity.
Qed.

Lemma formatTime_shows_zero_only_at_the_end_witness :
  TimerStorage.formatTime (Num 1) = "00:01".
Proof.
  refine (proj2 (proj2 (formatTime_shows_zero_only_at_the_end 1)) _). lia.
Defined.

(** ** Progress on every state *)

Lemma clamped_range (r : jsreal) :
  Math_min100r (Math_max0r r) = RNaN
  \/ exists q, Math_min100r (Math_max0r r) = Fin q /\ (0 <= q)%Q /\ (q <= 100)%Q.
Proof.
  destruct r as [ | | | q]; simpl.
  - now left.
  - right. exists 100%Q. repeat split; unfold Qle; simpl; lia.
  - right. exists (Qmin 100 0). split; [reflexivity |].
    split; [apply Q.min_glb | apply Q.le_min_l]; unfold Qle; simpl; lia.
  - right. exists (clamp q). split; [reflexivity |]. apply clamp_range.
Qed.

Lemma div_Num (x y : Z) :
  div (Num x) (Num y) =
  if y =? 0
  then if x =? 0 then RNaN else if 0 <? x then PosInf else NegInf
  else Fin (inject_Z x / inject_Z y)%Q.
Proof. reflexivity. Qed.

(** X17.  On every state, whatever its keys hold, [getProgress] is NaN
    or a number between 0 and 100: the clamp also catches the infinite
    quotients of a phase of length 0.  With integer keys it is NaN
    exactly when the length of the current phase and [remainingMs] are
    both 0; a phase of length 0 otherwise shows 0 while [remainingMs] is
    positive and 100 once it is negative. *)
Theorem getProgress_is_a_percentage_or_NaN (s : TimerState) :
  (TimerStorage.getProgress s = RNaN
   \/ exists q, TimerStorage.getProgress s = Fin q
                /\ (0 <= q)%Q /\ (q <= 100)%Q)
  /\ (forall w b r,
        workDuration s = Num w ->
        breakDuration s = Num b ->
        remainingMs s = Num r ->
        (TimerStorage.getProgress s = RNaN
         <-> phaseTotalMs (mode s) w b = 0 /\ r = 0)
        /\ (phaseTotalMs (mode s) w b = 0 -> 0 < r ->
            TimerStorage.getProgress s = Fin 0)
        /\ (phaseTotalMs (mode s) w b = 0 -> r < 0 ->
            TimerStorage.getProgress s = Fin 100)).
Proof.
  split; [unfold TimerStorage.getProgress; apply clamped_range |].
  intros w b r Hw Hb Hr.
  assert (E : TimerStorage.getProgress s =
    Math_min100r (Math_max0r (times100
      (div (Num (phaseTotalMs (mode s) w b - r))
           (Num (phaseTotalMs (mode s) w b)))))).
  { unfold TimerStorage.getProgress. rewrite Hw, Hb, Hr, !mul_minutes.
    unfold phaseTotalMs. destruct (mode s); reflexivity. }
  rewrite E. clear E. generalize (phaseTotalMs (mode s) w b). intros T.
  rewrite div_Num.
  destruct (Z.eqb_spec T 0) as [HT | HT].
  - destruct (Z.eqb_spec (T - r) 0) as [Hr0 | Hr0]; cbn.
    + repeat split; try lia; intros; lia.
    + destruct (Z.ltb_spec 0 (T - r)); cbn;
        (split; [split; [discriminate | lia] |]);
        split; intros; try reflexivity; lia.
  - cbn. split; [split; [discriminate | lia] |]. split; intros; lia.
Qed.

Lemma getProgress_is_a_percentage_or_NaN_witness :
  TimerStorage.getProgress
    (spread TimerStorage.defaultState
       (Partial.mk None (Some (Num 0)) None None None None (Some (Num 0))
          None None None))
  = RNaN.
Proof.
  refine (proj2 (proj1 (proj2 (getProgress_is_a_percentage_or_NaN
                   (spread TimerStorage.defaultState
                      (Partial.mk None (Some (Num 0)) None None None None
                         (Some (Num 0)) None None None)))
                   0 5 0 eq_refl eq_refl eq_refl)) _).
  split; reflexivity.
Defined.

Section Percent.

Local Open Scope Q_scope.

Lemma clamp_monotone (x y : Q) : x <= y -> clamp x <= clamp y.
Proof.
  intros H. unfold clamp.
  destruct (Q.min_spec 100 (Qmax 0 x)) as [[? ?] | [? ?]],
           (Q.min_spec 100 (Qmax 0 y)) as [[? ?] | [? ?]],
           (Q.max_spec 0 x) as [[? ?] | [? ?]],
           (Q.max_spec 0 y) as [[? ?] | [? ?]]; lra.
Qed.

Lemma clamp_inside (x : Q) : 0 <= x -> x <= 100 -> clamp x == x.
Proof.
  intros H0 H1. unfold clamp.
  destruct (Q.min_spec 100 (Qmax 0 x)) as [[? ?] | [? ?]],
           (Q.max_spec 0 x) as [[? ?] | [? ?]]; lra.
Qed.

Lemma percent_le (a b : Z) (t : positive) :
  (a <= b)%Z ->
  inject_Z a / inject_Z (Zpos t) * 100 <= inject_Z b / inject_Z (Zpos t) * 100.
Proof.
  intros H. unfold Qdiv, Qinv, Qmult, Qle, inject_Z; simpl. nia.
Qed.

Lemma percent_lt (a b : Z) (t : positive) :
  (a < b)%Z ->
  inject_Z a / inject_Z (Zpos t) * 100 < inject_Z b / inject_Z (Zpos t) * 100.
Proof.
  intros H. unfold Qdiv, Qinv, Qmult, Qlt, inject_Z; simpl. nia.
Qed.

Lemma percent_range (a : Z) (t : positive) :
  (0 <= a <= Zpos t)%Z ->
  0 <= inject_Z a / inject_Z (Zpos t) * 100
  /\ inject_Z a / inject_Z (Zpos t) * 100 <= 100.
Proof.
  intros H. unfold Qdiv, Qinv, Qmult, Qle, inject_Z; simpl. split; nia.
Qed.

End Percent.

(** X18.  Progress never runs backwards.  For positive durations, the
    less time remains the greater [getProgress] is: it is monotone in
    [remainingMs] on all integers, and strictly so while [remainingMs]
    lies between 0 and the length of the phase; so every tick that
    counts down raises the progress shown. *)
Theorem progress_grows_as_time_runs_out (s : TimerState) (w b r1 r2 : Z) :
  workDuration s = Num w -> 0 < w ->
  breakDuration s = Num b -> 0 < b ->
  r1 <= r2 ->
  exists q1 q2 : Q,
    TimerStorage.getProgress (with_remainingMs (Num r1) s) = Fin q1
    /\ TimerStorage.getProgress (with_remainingMs (Num r2) s) = Fin q2
    /\ (q2 <= q1)%Q
    /\ (0 <= r1 -> r1 < r2 -> r2 <= phaseTotalMs (mode s) w b ->
        (q2 < q1)%Q).
Proof.
  intros Hw Hwpos Hb Hbpos Hle.
  pose proof (getProgress_formula (with_remainingMs (Num r1) s) w b r1
                Hw Hwpos Hb Hbpos eq_refl) as H1.
  pose proof (getProgress_formula (with_remainingMs (Num r2) s) w b r2
                Hw Hwpos Hb Hbpos eq_refl) as H2.
  cbv zeta in H1, H2.
  change (mode (with_remainingMs (Num r1) s)) with (mode s) in H1.
  change (mode (with_remainingMs (Num r2) s)) with (mode s) in H2.
  assert (Hpos : 0 < phaseTotalMs (mode s) w b)
    by (unfold phaseTotalMs; destruct (mode s); lia).
  destruct (phaseTotalMs (mode s) w b) as [| t | t] eqn:Et; try lia.
  eexists _, _. split; [exact H1 |]. split; [exact H2 |]. split.
  - apply clamp_monotone, percent_le. lia.
  - intros H0 Hlt Hmax.
    destruct (percent_range (Z.pos t - r1) t ltac:(lia)) as [Ha Hb'].
    destruct (percent_range (Z.pos t - r2) t ltac:(lia)) as [Hc Hd].
    rewrite (clamp_inside _ Ha Hb'), (clamp_inside _ Hc Hd).
    apply percent_lt. lia.
Qed.

Lemma progress_grows_as_time_runs_out_witness :
  exists q1 q2 : Q,
    TimerStorage.getProgress
      (with_remainingMs (Num 1499000) TimerStorage.defaultState) = Fin q1
    /\ TimerStorage.getProgress
         (with_remainingMs (Num 1500000) TimerStorage.defaultState) = Fin q2
    /\ (q2 < q1)%Q.
Proof.
  destruct (progress_grows_as_time_runs_out TimerStorage.defaultState 25 5
              1499000 1500000)
    as (q1 & q2 & H1 & H2 & _ & Hlt);
    [reflexivity | lia | reflexivity | lia | lia |].
  exists q1, q2. split; [exact H1 | split; [exact H2 |]].
  apply Hlt; simpl; lia.
Defined.

(** X6.  [reset] on a state with positive durations: the interval and
    the state are stopped, [remainingMs] is the full length of the
    current phase whatever it was before, so that the progress is back
    to 0, and a well-formed state stays well formed; the mode, the
    preset, the session count and the durations are kept; one state
    change is announced, and a second [reset] changes nothing more in
    the state. *)
Theorem reset_restarts_the_phase (e : Engine) (w b : Z) :
  workDuration (state e) = Num w -> 0 < w ->
  breakDuration (state e) = Num b -> 0 < b ->
  let s := state e in
  let s' := state (reset e) in
  remainingMs s' = Num (phaseTotalMs (mode s) w b)
  /\ (exists q, getProgress (reset e) = Fin q /\ (q == 0)%Q)
  /\ isRunning s' = false
  /\ intervalId (reset e) = None
  /\ mode s' = mode s
  /\ preset s' = preset s
  /\ completedSessions s' = completedSessions s
  /\ workDuration s' = Num w
  /\ breakDuration s' = Num b
  /\ customWorkDuration s' = customWorkDuration s
  /\ customBreakDuration s' = customBreakDuration s
  /\ (well_formed s = true -> well_formed s' = true)
  /\ state (reset (reset e)) = s'
  /\ emitted (reset e) = (emitted e ++ [onStateChange (keys_of s) s'])%list.
Proof.
  intros Hw Hwpos Hb Hbpos s s'.
  assert (Hrem : remainingMs s' = Num (phaseTotalMs (mode s) w b)).
  { unfold s', s. rewrite reset_state; simpl. rewrite Hw, Hb, !mul_minutes.
    destruct (mode (state e)); reflexivity. }
  assert (Hmode : mode s' = mode s) by (unfold s'; now rewrite reset_state).
  assert (Hw' : workDuration s' = Num w)
    by (unfold s'; now rewrite reset_state).
  assert (Hb' : breakDuration s' = Num b)
    by (unfold s'; now rewrite reset_state).
  split; [exact Hrem |].
  split.
  { unfold getProgress. fold s'.
    rewrite (getProgress_formula s' w b _ Hw' Hwpos Hb' Hbpos Hrem).
    eexists. split; [reflexivity |].
    rewrite Hmode. apply clamp_zero.
    assert (Ht : 0 < phaseTotalMs (mode s) w b)
      by (unfold phaseTotalMs; destruct (mode s); lia).
    destruct (phaseTotalMs (mode s) w b) as [| t | t]; try lia.
    apply percent_nonpos. lia. }
  split; [unfold s'; now rewrite reset_state |].
  split; [apply reset_intervalId |].
  split; [exact Hmode |].
  split; [unfold s'; now rewrite reset_state |].
  split; [unfold s'; now rewrite reset_state |].
  split; [exact Hw' |].
  split; [exact Hb' |].
  split; [unfold s'; now rewrite reset_state |].
  split; [unfold s'; now rewrite reset_state |].
  split.
  { intros Hwf. destruct (well_formed_inv s Hwf)
      as (r & n & w0 & b0 & cw & cb & Es & Hr & Hle & Hn & Hw0 & Hb0 & Hcw & Hcb).
    assert (w0 = w) by (unfold s in Es; rewrite Es in Hw; simpl in Hw; congruence).
    assert (b0 = b) by (unfold s in Es; rewrite Es in Hb; simpl in Hb; congruence).
    subst w0 b0.
    assert (Es' : s' =
      {| mode := mode s; remainingMs := Num (phaseTotalMs (mode s) w b);
         preset := preset s; isRunning := false; completedSessions := Num n;
         lastTickAt := lastTickAt s; workDuration := Num w;
         breakDuration := Num b; customWorkDuration := Num cw;
         customBreakDuration := Num cb |}).
    { unfold s'. rewrite reset_state. fold s. rewrite <- Hrem.
      unfold s'. rewrite reset_state. fold s.
      rewrite Es; simpl. reflexivity. }
    rewrite Es'. apply well_formed_intro; lia. }
  split.
  { unfold s'. rewrite (reset_state (reset e)), !reset_state. reflexivity. }
  apply reset_emitted.
Qed.

Lemma reset_restarts_the_phase_witness :
  remainingMs (state (reset about_to_complete)) = Num 1500000
  /\ exists q, getProgress (reset about_to_complete) = Fin q /\ (q == 0)%Q.
Proof.
  destruct (reset_restarts_the_phase about_to_complete 25 5)
    as (Hrem & Hq & _); [reflexivity | lia | reflexivity | lia |].
  split; [exact Hrem | exact Hq].
Defined.

(** ** Subscribers *)

Lemma callbacks_get_set_same (c : Callbacks.t) (event : string)
  (l l' : list nat) :
  callbacks_get c event = Subscribers l ->
  callbacks_get (callbacks_set c event l') event = Subscribers l'.
Proof.
  unfold callbacks_get, callbacks_set.
  destruct (String.eqb event "onTick"); [reflexivity |].
  destruct (String.eqb event "onStateChange"); [reflexivity |].
  destruct (String.eqb event "onComplete"); [reflexivity |].
  destruct (String.eqb event "onModeSwitch"); [reflexivity |].
  destruct (existsb _ _); discriminate.
Qed.

Lemma callbacks_get_set_other (c : Callbacks.t) (event other : string)
  (l' : list nat) :
  other <> event ->
  callbacks_get (callbacks_set c event l') other = callbacks_get c other.
Proof.
  intros Hne. unfold callbacks_get, callbacks_set.
  destruct (String.eqb_spec event "onTick") as [-> | ?].
  { apply String.eqb_neq in Hne. now rewrite Hne. }
  destruct (String.eqb_spec event "onStateChange") as [-> | ?].
  { apply String.eqb_neq in Hne. now rewrite Hne. }
  destruct (String.eqb_spec event "onComplete") as [-> | ?].
  { apply String.eqb_neq in Hne. now rewrite Hne. }
  destruct (String.eqb_spec event "onModeSwitch") as [-> | ?].
  { apply String.eqb_neq in Hne. now rewrite Hne. }
  reflexivity.
Qed.

Lemma callbacks_get_cases (c : Callbacks.t) (event : string) :
  (exists l, callbacks_get c event = Subscribers l
             /\ In event ["onTick"; "onStateChange"; "onComplete";
                          "onModeSwitch"])
  \/ (callbacks_get c event = NotAnArray /\ In event Object_prototype)
  \/ (callbacks_get c event = NoSuchEvent
      /\ ~ In event ["onTick"; "onStateChange"; "onComplete"; "onModeSwitch"]
      /\ ~ In event Object_prototype).
Proof.
  unfold callbacks_get.
  destruct (String.eqb_spec event "onTick") as [-> | H1].
  { left. eexists. split; [reflexivity | simpl; tauto]. }
  destruct (String.eqb_spec event "onStateChange") as [-> | H2].
  { left. eexists. split; [reflexivity | simpl; tauto]. }
  destruct (String.eqb_spec event "onComplete") as [-> | H3].
  { left. eexists. split; [reflexivity | simpl; tauto]. }
  destruct (String.eqb_spec event "onModeSwitch") as [-> | H4].
  { left. eexists. split; [reflexivity | simpl; tauto]. }
  right. destruct (existsb (String.eqb event) Object_prototype) eqn:E.
  - left. split; [reflexivity |].
    apply existsb_exists in E. destruct E as (k & Hin & Hk).
    apply String.eqb_eq in Hk. now subst.
  - right. split; [reflexivity |]. split.
    + simpl. intuition congruence.
    + now apply not_inherited.
Qed.

(** X19.  [subscribe(event, callback)] under one of the four event
    names puts the callback after the subscribers already there: from
    then on every event of that name calls it last, once more than
    before, and the events of the other names are delivered as before.
    Under any other name nothing is registered, silently (this is so
    for ['tick'] or ['complete'], the names being ['onTick'],
    ['onStateChange'], ['onComplete'] and ['onModeSwitch']), except
    under a name inherited from [Object.prototype], where the call
    throws. *)
Theorem subscribe_registers_last (event : string) (callback : nat)
  (c : Callbacks.t) :
  (In event ["onTick"; "onStateChange"; "onComplete"; "onModeSwitch"] ->
   exists c', subscribe event callback c = Some c'
     /\ forall ev,
          calls_of c' ev =
          if String.eqb (event_name ev) event
          then (calls_of c ev ++ [(callback, ev)])%list
          else calls_of c ev)
  /\ (~ In event ["onTick"; "onStateChange"; "onComplete"; "onModeSwitch"] ->
      ~ In event Object_prototype ->
      subscribe event callback c = Some c)
  /\ (In event Object_prototype -> subscribe event callback c = None).
Proof.
  destruct (callbacks_get_cases c event)
    as [(l & Hl & Hin) | [(Hg & Hin) | (Hg & Hn1 & Hn2)]].
  - split; [| split].
    + intros _. unfold subscribe. rewrite Hl. eexists. split; [reflexivity |].
      intros ev. unfold calls_of.
      destruct (String.eqb_spec (event_name ev) event) as [-> | Hne].
      * rewrite (callbacks_get_set_same _ _ _ _ Hl), Hl.
        now rewrite map_app.
      * now rewrite callbacks_get_set_other.
    + intros Hn. contradiction.
    + intros Hp. exfalso. revert Hin Hp. simpl.
      intuition (subst; discriminate).
  - split; [| split].
    + intros H. exfalso. revert Hin H. simpl. intuition (subst; discriminate).
    + intros _ Hn. contradiction.
    + intros _. unfold subscribe. now rewrite Hg.
  - split; [| split].
    + intros H. contradiction.
    + intros _ _. unfold subscribe. now rewrite Hg.
    + intros H. contradiction.
Qed.

Lemma subscribe_registers_last_witness :
  let c := Callbacks.mk [9]%nat [3]%nat [1; 2]%nat [4]%nat in
  let complete := onComplete work break (Num 1) in
  let modeSwitch := onModeSwitch work break (Num 1) in
  (exists c',
     subscribe "onComplete" 7 c = Some c'
     /\ calls_of c' complete =
        [(1%nat, complete); (2%nat, complete); (7%nat, complete)]
     /\ calls_of c' modeSwitch = [(4%nat, modeSwitch)])
  /\ subscribe "complete" 7 c = Some c
  /\ subscribe "toString" 7 c = None.
Proof.
  intros c complete modeSwitch.
  destruct (subscribe_registers_last "onComplete" 7 c) as (Happend & _).
  destruct Happend as (c' & Hsub & Hcalls); [simpl; tauto |].
  split; [| split].
  - exists c'. split; [exact Hsub |].
    split; rewrite Hcalls; reflexivity.
  - refine (proj1 (proj2 (subscribe_registers_last "complete" 7 c)) _ _);
      simpl; intuition discriminate.
  - apply (proj2 (proj2 (subscribe_registers_last "toString" 7 c))).
    simpl; tauto.
Defined.

Lemma filter_twice (f : nat -> bool) (l : list nat) :
  filter f (filter f l) = filter f l.
Proof.
  induction l as [| a l IH]; simpl; [reflexivity |].
  destruct (f a) eqn:E; simpl; rewrite ?E; now rewrite IH.
Qed.

(** X20.  [unsubscribe(event, callback)] under one of the four event
    names removes every registration of the callback under that name,
    also when it had subscribed several times: afterwards no event of
    that name calls it, the other subscribers are called in the same
    order as before, and the events of the other names are delivered as
    before.  A second [unsubscribe] changes nothing, and so does the
    [unsubscribe] of a callback that was not registered.  A
    [subscribe] followed by the [unsubscribe] of the same callback
    leaves the registry as the [unsubscribe] alone does. *)
Theorem unsubscribe_removes_every_registration (event : string)
  (callback : nat) (c : Callbacks.t) :
  In event ["onTick"; "onStateChange"; "onComplete"; "onModeSwitch"] ->
  exists c',
    unsubscribe event callback c = Some c'
    /\ (forall ev,
          calls_of c' ev =
          if String.eqb (event_name ev) event
          then filter (fun call => negb (Nat.eqb (fst call) callback))
                 (calls_of c ev)
          else calls_of c ev)
    /\ (forall ev, ~ In (callback, ev) (calls_of c' ev)
                   \/ event_name ev <> event)
    /\ unsubscribe event callback c' = Some c'
    /\ (forall c1, subscribe event callback c = Some c1 ->
                   unsubscribe event callback c1 = Some c')
    /\ ((forall ev, ~ In (callback, ev) (calls_of c ev)) -> c' = c).
Proof.
  intros Hin.
  destruct (callbacks_get_cases c event)
    as [(l & Hl & _) | [(Hg & Hp) | (Hg & Hn1 & _)]];
    [| exfalso; revert Hin Hp; simpl; intuition (subst; discriminate)
     | contradiction].
  set (keep := fun cb => negb (Nat.eqb cb callback)).
  exists (callbacks_set c event (filter keep l)).
  assert (Hcalls : forall ev,
    calls_of (callbacks_set c event (filter keep l)) ev =
    if String.eqb (event_name ev) event
    then filter (fun call => negb (Nat.eqb (fst call) callback))
           (calls_of c ev)
    else calls_of c ev).
  { intros ev. unfold calls_of.
    destruct (String.eqb_spec (event_name ev) event) as [-> | Hne].
    - rewrite (callbacks_get_set_same _ _ _ _ Hl), Hl.
      clear. induction l as [| a l IH]; simpl; [reflexivity |].
      unfold keep at 1. destruct (Nat.eqb a callback); simpl; now rewrite IH.
    - now rewrite callbacks_get_set_other. }
  split; [unfold unsubscribe; now rewrite Hl |].
  split; [exact Hcalls |].
  split.
  { intros ev. destruct (String.eqb_spec (event_name ev) event) as [E | E];
      [left | now right].
    rewrite Hcalls. apply String.eqb_eq in E. rewrite E.
    intros H. apply filter_In in H. destruct H as (_ & H). simpl in H.
    now rewrite Nat.eqb_refl in H. }
  split.
  { unfold unsubscribe.
    rewrite (callbacks_get_set_same _ _ _ _ Hl). fold keep.
    rewrite filter_twice. f_equal.
    unfold callbacks_set.
    destruct (String.eqb event "onTick"); [reflexivity |].
    destruct (String.eqb event "onStateChange"); [reflexivity |].
    destruct (String.eqb event "onComplete"); [reflexivity |].
    destruct (String.eqb event "onModeSwitch"); reflexivity. }
  split.
  { intros c1 H1. unfold subscribe in H1. rewrite Hl in H1.
    injection H1 as <-. unfold unsubscribe.
    rewrite (callbacks_get_set_same _ _ _ _ Hl). fold keep.
    rewrite filter_app. simpl. unfold keep at 2.
    rewrite Nat.eqb_refl. simpl. rewrite app_nil_r. f_equal.
    unfold callbacks_set.
    destruct (String.eqb event "onTick"); [reflexivity |].
    destruct (String.eqb event "onStateChange"); [reflexivity |].
    destruct (String.eqb event "onComplete"); [reflexivity |].
    destruct (String.eqb event "onModeSwitch"); reflexivity. }
  intros Hnot.
  assert (Hl' : filter keep l = l).
  { assert (Hnin : ~ In callback l).
    { intros Hc.
      assert (Hev : exists ev, event_name ev = event).
      { revert Hin. simpl. intros [<- | [<- | [<- | [<- | []]]]].
        - exists (onTick NaN "" RNaN). reflexivity.
        - exists (onStateChange Partial.empty TimerStorage.defaultState).
          reflexivity.
        - exists (onComplete work work NaN). reflexivity.
        - exists (onModeSwitch work work NaN). reflexivity. }
      destruct Hev as (ev & Hev). apply (Hnot ev).
      unfold calls_of. rewrite Hev, Hl.
      apply in_map_iff. exists callback. split; [reflexivity | exact Hc]. }
    clear - Hnin. induction l as [| a l IH]; simpl; [reflexivity |].
    unfold keep at 1. destruct (Nat.eqb_spec a callback) as [-> | Hne]; simpl.
    - exfalso. apply Hnin. now left.
    - f_equal. apply IH. intros H. apply Hnin. now right. }
  rewrite Hl'. revert Hl. unfold callbacks_get, callbacks_set.
  destruct c as [l1 l2 l3 l4]; simpl.
  destruct (String.eqb event "onTick"); [intros [= <-]; reflexivity |].
  destruct (String.eqb event "onStateChange"); [intros [= <-]; reflexivity |].
  destruct (String.eqb event "onComplete"); [intros [= <-]; reflexivity |].
  destruct (String.eqb event "onModeSwitch"); [intros [= <-]; reflexivity |].
  reflexivity.
Qed.

Lemma unsubscribe_removes_every_registration_witness :
  unsubscribe "onTick" 1 (Callbacks.mk [1; 2; 1; 3]%nat [1]%nat [] []) =
  Some (Callbacks.mk [2; 3]%nat [1]%nat [] []).
Proof.
  destruct (unsubscribe_removes_every_registration "onTick" 1
              (Callbacks.mk [1; 2; 1; 3]%nat [1]%nat [] []))
    as (c' & Hun & _); [simpl; tauto |].
  rewrite Hun. f_equal. unfold unsubscribe in Hun. simpl in Hun.
  now injection Hun as <-.
Defined.

(** X21.  The order of the calls.  With the subscribers staying the
    same, a tick that ends a phase calls the subscribers of
    [onStateChange], then those of [onComplete], then those of
    [onModeSwitch], each group in the order of registration, and it
    calls no subscriber of [onTick]; a skip calls the subscribers of
    [onStateChange] and then those of [onModeSwitch], and none of
    [onComplete]. *)
Theorem calls_of_a_completion_and_of_a_skip (c : Callbacks.t) (e : Engine)
  (r : Z) :
  isRunning (state e) = true ->
  remainingMs (state e) = Num r ->
  r <= 1000 ->
  let next := TimerStorage.transitionToNext (state e) in
  let stateChange := onStateChange (keys_of (state e)) next in
  let complete :=
    onComplete (mode (state e)) (mode next) (completedSessions next) in
  let modeSwitch :=
    onModeSwitch (mode (state e)) (mode next) (completedSessions next) in
  let skipped :=
    onModeSwitch (mode next) (mode next) (completedSessions next) in
  emitted (tick e) = (emitted e ++ [stateChange; complete; modeSwitch])%list
  /\ deliveries c [stateChange; complete; modeSwitch] =
     (map (fun h => (h, stateChange)) (Callbacks.onStateChange c)
      ++ map (fun h => (h, complete)) (Callbacks.onComplete c)
      ++ map (fun h => (h, modeSwitch)) (Callbacks.onModeSwitch c))%list
  /\ emitted (skipSession e) = (emitted e ++ [stateChange; skipped])%list
  /\ deliveries c [stateChange; skipped] =
     (map (fun h => (h, stateChange)) (Callbacks.onStateChange c)
      ++ map (fun h => (h, skipped)) (Callbacks.onModeSwitch c))%list.
Proof.
  intros Hrun Hrem Hr next stateChange complete modeSwitch skipped.
  assert (He : tick e = handleTimerComplete e).
  { unfold tick. rewrite Hrun, Hrem.
    unfold sub, arith, Math_max0; simpl. rewrite Z.max_l by lia.
    reflexivity. }
  destruct (handleTimerComplete_spec e) as (_ & _ & _ & Hem).
  destruct (skipSession_spec e) as (_ & _ & Hsk).
  split; [rewrite He; exact Hem |].
  split; [unfold deliveries; simpl; now rewrite app_nil_r |].
  split; [exact Hsk |].
  unfold deliveries; simpl. now rewrite app_nil_r.
Qed.

Lemma calls_of_a_completion_and_of_a_skip_witness :
  let stateChange :=
    onStateChange (keys_of (state about_to_complete))
      (TimerStorage.transitionToNext (state about_to_complete)) in
  deliveries (Callbacks.mk [1]%nat [2; 3]%nat [4]%nat [5]%nat)
    [stateChange; onComplete work break (Num 4); onModeSwitch work break (Num 4)]
  = [(2%nat, stateChange); (3%nat, stateChange);
     (4%nat, onComplete work break (Num 4));
     (5%nat, onModeSwitch work break (Num 4))].
Proof.
  destruct (calls_of_a_completion_and_of_a_skip
              (Callbacks.mk [1]%nat [2; 3]%nat [4]%nat [5]%nat)
              about_to_complete 1000)
    as (_ & Hd & _); [reflexivity | reflexivity | lia |].
  exact Hd.
Defined.

(** ** The custom settings form *)

Example parseInt_examples :
  parseInt "25" = Num 25 /\ parseInt "  42" = Num 42
  /\ parseInt "12px" = Num 12 /\ parseInt "7.9" = Num 7
  /\ parseInt "1e3" = Num 1 /\ parseInt "-5" = Num (-5)
  /\ parseInt "+5" = Num 5 /\ parseInt "0x1f" = Num 31
  /\ parseInt "-0X10" = Num (-16) /\ parseInt "010" = Num 10
  /\ parseInt "" = NaN /\ parseInt ".5" = NaN /\ parseInt "abc" = NaN
  /\ parseInt "0x" = NaN /\ parseInt "- 5" = NaN.
Proof. repeat split. Qed.

Lemma parseInt_cases (text : string) :
  parseInt text = NaN \/ exists z, parseInt text = Num z.
Proof.
  unfold parseInt.
  destruct (match skip_whitespace text with
            | String "-"%char rest => (-1, rest)
            | String "+"%char rest => (1, rest)
            | _ => (1, skip_whitespace text)
            end) as [sign s].
  destruct (match s with
            | String "0"%char (String "x"%char rest) =>
                read_digits hexadecimal_digit 16 rest None
            | String "0"%char (String "X"%char rest) =>
                read_digits hexadecimal_digit 16 rest None
            | _ => read_digits decimal_digit 10 s None
            end); [right; eexists; reflexivity | now left].
Qed.

Lemma validateCustomInput_spec (input : Input.t) (min max : Z) :
  (snd (validateCustomInput input min max) = true
   <-> exists z, parseInt (Input.value input) = Num z /\ min <= z <= max)
  /\ Input.value (fst (validateCustomInput input min max)) = Input.value input
  /\ Input.invalid (fst (validateCustomInput input min max))
     = negb (snd (validateCustomInput input min max)).
Proof.
  unfold validateCustomInput; simpl. split; [| split; reflexivity].
  destruct (parseInt_cases (Input.value input)) as [E | (z & E)];
    rewrite E; unfold isNaN, js_ge, js_le; simpl.
  - split; [discriminate | intros (z & H & _); discriminate].
  - rewrite andb_true_iff, Z.leb_le, Z.leb_le. split.
    + intros H. exists z. split; [reflexivity | exact H].
    + intros (z' & H & Hr). injection H as <-. exact Hr.
Qed.

Lemma setCustomDurations_state (w b : Z) (e : Engine) :
  w <> 0 -> b <> 0 ->
  state (setCustomDurations (Num w) (Num b) e) =
  {| mode := work; remainingMs := Num (w * 60000); preset := "custom";
     isRunning := false;
     completedSessions := completedSessions (state e);
     lastTickAt := Null; workDuration := Num w;
     breakDuration := Num b; customWorkDuration := Num w;
     customBreakDuration := Num b |}.
Proof.
  intros Hw Hb. unfold setCustomDurations. rewrite selectPreset_state.
  unfold TimerStorage.initializeWithPreset; simpl.
  unfold js_or; simpl.
  destruct (Z.eqb_spec w 0); [contradiction |].
  destruct (Z.eqb_spec b 0); [contradiction |]. simpl.
  rewrite mul_minutes. reflexivity.
Qed.

(** X22.  The form never hands the engine a duration out of range.
    [applyCustomSettings] calls [setCustomDurations] exactly when the
    work input parses ([parseInt]) to an integer from 1 to 120 and the
    break input to one from 1 to 60; the state is then the custom preset
    with exactly these minutes, the countdown at the full work duration,
    and one success notification is shown.  Otherwise the engine and the
    notifications are untouched and an input is marked invalid; when the
    work input is the invalid one the break input is not even looked at
    and keeps its marks. *)
Theorem applyCustomSettings_validates (p : Page) :
  let p' := applyCustomSettings p in
  (exists w b,
     parseInt (Input.value (workInput p)) = Num w /\ 1 <= w <= 120
     /\ parseInt (Input.value (breakInput p)) = Num b /\ 1 <= b <= 60
     /\ pomodoro p' = setCustomDurations (Num w) (Num b) (pomodoro p)
     /\ state (pomodoro p') =
        {| mode := work; remainingMs := Num (w * 60000); preset := "custom";
           isRunning := false;
           completedSessions := completedSessions (state (pomodoro p));
           lastTickAt := Null; workDuration := Num w;
           breakDuration := Num b; customWorkDuration := Num w;
           customBreakDuration := Num b |}
     /\ notifications p' =
        (notifications p ++ [("Đã cập nhật thiết lập tùy chỉnh!", "success")])%list
     /\ Input.invalid (workInput p') = false
     /\ Input.invalid (breakInput p') = false)
  \/ (pomodoro p' = pomodoro p
      /\ notifications p' = notifications p
      /\ (Input.invalid (workInput p') = true
          \/ Input.invalid (breakInput p') = true)
      /\ (Input.invalid (workInput p') = true -> breakInput p' = breakInput p)
      /\ ~ (exists w b,
              parseInt (Input.value (workInput p)) = Num w /\ 1 <= w <= 120
              /\ parseInt (Input.value (breakInput p)) = Num b
              /\ 1 <= b <= 60)).
Proof.
  intros p'. unfold p', applyCustomSettings.
  destruct (validateCustomInput_spec (workInput p) 1 120) as (Hw & _ & Hwi).
  destruct (validateCustomInput_spec (breakInput p) 1 60) as (Hb & _ & Hbi).
  destruct (validateCustomInput (workInput p) 1 120) as [wi wv].
  destruct (validateCustomInput (breakInput p) 1 60) as [bi bv].
  simpl in *. destruct wv.
  - destruct (proj1 Hw eq_refl) as (w & Ew & Hwr).
    destruct bv.
    + destruct (proj1 Hb eq_refl) as (b & Eb & Hbr).
      left. exists w, b. rewrite Ew, Eb.
      cbn [pomodoro notifications workInput breakInput].
      rewrite Hwi, Hbi.
      repeat split; try assumption; try lia.
      apply setCustomDurations_state; lia.
    + right. simpl. repeat split; try tauto.
      * intros H. rewrite Hwi in H. discriminate.
      * intros (w' & b' & _ & _ & Eb & Hbr).
        assert (false = true); [| discriminate].
        apply Hb. exists b'. split; assumption.
  - right. simpl. repeat split; try tauto.
    intros (w' & b' & Ew & Hwr & _).
    assert (false = true); [| discriminate].
    apply Hw. exists w'. split; assumption.
Qed.

(** ** Tearing the engine down *)

Lemma deliveries_empty (evs : list Event) :
  deliveries Callbacks.empty evs = [].
Proof.
  unfold deliveries. induction evs as [| ev evs IH]; [reflexivity |].
  simpl. rewrite IH, app_nil_r.
  unfold calls_of, callbacks_get, Callbacks.empty.
  destruct (event_name ev =? "onTick")%string; [reflexivity |].
  destruct (event_name ev =? "onStateChange")%string; [reflexivity |].
  destruct (event_name ev =? "onComplete")%string; [reflexivity |].
  destruct (event_name ev =? "onModeSwitch")%string; [reflexivity |].
  destruct (existsb (String.eqb (event_name ev)) Object_prototype);
    reflexivity.
Qed.

(** X23.  [destroy] stops the interval and drops every subscriber, but
    it does not touch the state: destroyed while running, the engine
    still says [isRunning = true], in memory and in the stored record,
    with no interval scheduled.  [start] is then the guarded no-op, so
    the countdown cannot be started again before a [pause] (or a
    [toggle], which pauses); and whatever is emitted afterwards reaches
    no subscriber. *)
Theorem destroy_leaves_the_state_running (e : Engine) (c : Callbacks.t) :
  isRunning (state e) = true ->
  let e' := fst (destroy e c) in
  let c' := snd (destroy e c) in
  intervalId e' = None
  /\ state e' = state e
  /\ storage e' = storage e
  /\ emitted e' = emitted e
  /\ scheduled e' = false
  /\ start e' = e'
  /\ isRunning (state (toggle e')) = false
  /\ intervalId (toggle e') = None
  /\ intervalId (start (pause e')) <> None
  /\ forall evs, deliveries c' evs = [].
Proof.
  intros Hrun e' c'. unfold e', c', destroy; simpl.
  assert (Hs : state (stopTimer e) = state e) by apply stopTimer_state.
  assert (Hi : intervalId (stopTimer e) = None) by apply stopTimer_intervalId.
  split; [exact Hi |].
  split; [exact Hs |].
  split; [apply stopTimer_storage |].
  split; [apply stopTimer_emitted |].
  split; [unfold scheduled; now rewrite Hi, Hs, Hrun |].
  split; [unfold start; now rewrite Hs, Hrun |].
  split; [now rewrite toggle_state, Hs, Hrun |].
  split.
  { unfold toggle, pause. rewrite Hs, Hrun.
    rewrite updateState_spec; simpl. apply stopTimer_intervalId. }
  split.
  { unfold start. rewrite pause_state; simpl.
    unfold startTimer; simpl. discriminate. }
  apply deliveries_empty.
Qed.

Lemma destroy_leaves_the_state_running_witness :
  scheduled (fst (destroy about_to_complete Callbacks.empty)) = false
  /\ start (fst (destroy about_to_complete Callbacks.empty))
     = fst (destroy about_to_complete Callbacks.empty).
Proof.
  destruct (destroy_leaves_the_state_running about_to_complete
              Callbacks.empty)
    as (_ & _ & _ & _ & Hsch & Hstart & _); [reflexivity |].
  split; [exact Hsch | exact Hstart].
Defined.
